(** * The LLM prompt tool and the API smoke test, embedded in Rocq

    A shallow embedding of [scripts/prompt_llm.py] and
    [scripts/test_llm_api.py], followed by the properties that the
    specification states about them.

    - [Py]: the Python values the scripts handle (JSON data, [float] as
      IEEE binary64) and the dynamic operations they apply to them,
      with the exceptions those operations raise.
    - [IO]: what a run does to the outside: lines printed, requests
      issued, the exit status; the HTTP server is an oracle.
    - [PromptLlm], [TestLlmApi]: the two scripts, function by function.

    JSON bodies are objects, as the scripts annotate them
    ([response: dict]); what a key holds is dynamically typed. *)

From Stdlib Require Import ZArith Floats Ascii.
From stdpp Require Import base gmap strings list pretty.

Set Warnings "-register-all,-inexact-float".
Set Default Proof Using "Type".

Open Scope Z_scope.

(** ** Python values *)

Module Py.

Inductive value : Type :=
  | VNone
  | VBool (b : bool)
  | VInt (z : Z)
  | VFloat (f : float)
  | VStr (s : string)
  | VList (l : list value)
  | VDict (d : gmap string value).

Inductive exn : Type :=
  | RequestException (msg : string)
  | JSONDecodeError
  | KeyError (key : value)
  | IndexError
  | TypeError
  | AttributeError
  | OverflowError
  | ZeroDivisionError.

(** A computation that may raise. *)
Definition res (A : Type) : Type := exn + A.

Definition str_list (l : list string) : value := VList (VStr <$> l).

(** [Optional[int]], [Optional[str]] and [Optional[List[str]]] as values. *)
Definition optional (o : option Z) : value :=
  match o with Some z => VInt z | None => VNone end.

Definition optional_str (o : option string) : value :=
  match o with Some s => VStr s | None => VNone end.

Definition optional_strs (o : option (list string)) : value :=
  match o with Some l => str_list l | None => VNone end.

(** Truth value testing, [if x:]. *)
Definition truthy (v : value) : bool :=
  match v with
  | VNone => false
  | VBool b => b
  | VInt z => negb (z =? 0)
  | VFloat f => negb (f =? 0)%float
  | VStr s => negb (String.eqb s "")
  | VList l => match l with [] => false | _ => true end
  | VDict d => negb (Nat.eqb (size d) 0)
  end.

Definition truthy_str (o : option string) : bool :=
  match o with Some s => negb (String.eqb s "") | None => false end.

Definition truthy_int (o : option Z) : bool :=
  match o with Some z => negb (z =? 0) | None => false end.

Definition truthy_strs (o : option (list string)) : bool :=
  match o with Some (_ :: _) => true | _ => false end.

(** [len(str)] counts code points: the bytes of the UTF-8 encoding that
    are not continuation bytes [10xxxxxx]. *)
Definition is_continuation (a : ascii) : bool :=
  let b := Z.of_nat (nat_of_ascii a) in (128 <=? b) && (b <? 192).

Fixpoint str_len (s : string) : Z :=
  match s with
  | EmptyString => 0
  | String a s' => (if is_continuation a then 0 else 1) + str_len s'
  end.

(** Iterating a [str] yields its code points. *)
Fixpoint code_points (cur : string) (s : string) : list string :=
  match s with
  | EmptyString => match cur with EmptyString => [] | _ => [cur] end
  | String a s' =>
      if is_continuation a then code_points (cur +:+ String a EmptyString) s'
      else match cur with
           | EmptyString => code_points (String a EmptyString) s'
           | _ => cur :: code_points (String a EmptyString) s'
           end
  end.

(** [len(v)] *)
Definition len (v : value) : res Z :=
  match v with
  | VList l => inr (Z.of_nat (length l))
  | VStr s => inr (str_len s)
  | VDict d => inr (Z.of_nat (size d))
  | _ => inl TypeError
  end.

(** [iter(v)]: the elements a [for] loop walks through. *)
Definition iter (v : value) : res (list value) :=
  match v with
  | VList l => inr l
  | VStr s => inr (VStr <$> code_points "" s)
  | VDict d => inr (VStr <$> (map_to_list d).*1)
  | _ => inl TypeError
  end.

(** [v[key]] for a [str] key. *)
Definition getitem (v : value) (key : string) : res value :=
  match v with
  | VDict d => match d !! key with Some x => inr x | None => inl (KeyError (VStr key)) end
  | _ => inl TypeError
  end.

(** [v[i]] for an [int] index [i >= 0]. *)
Definition getitem_index (v : value) (i : nat) : res value :=
  match v with
  | VList l => match l !! i with Some x => inr x | None => inl IndexError end
  | VStr s =>
      match code_points "" s !! i with Some c => inr (VStr c) | None => inl IndexError end
  | VDict d => inl (KeyError (VInt (Z.of_nat i)))
  | _ => inl TypeError
  end.

(** [v.get(key, dflt)] *)
Definition get (v : value) (key : string) (dflt : value) : res value :=
  match v with
  | VDict d => inr (default dflt (d !! key))
  | _ => inl AttributeError
  end.

(** [key in v] for a [str] key. *)
Definition contains (key : string) (v : value) : res bool :=
  match v with
  | VDict d => inr (bool_decide (is_Some (d !! key)))
  | VList l =>
      inr (existsb (λ x, match x with VStr s => String.eqb s key | _ => false end) l)
  | VStr s => inr (bool_decide (is_Some (String.index 0 key s)))
  | _ => inl TypeError
  end.

(** [v > 0] *)
Definition gt_zero (v : value) : res bool :=
  match v with
  | VInt z => inr (0 <? z)
  | VBool b => inr b
  | VFloat f => inr (0 <? f)%float
  | _ => inl TypeError
  end.

(** [float(n)] for an [int]: the nearest binary64, ties to even;
    [OverflowError] when that is out of range. *)
Definition float_of_int (n : Z) : res float :=
  let f := SF2Prim (binary_normalize prec emax n 0 false) in
  if is_infinity f then inl OverflowError else inr f.

(** [v / x] for a [float] divisor [x]. *)
Definition truediv (v : value) (x : float) : res float :=
  let divide (f : float) : res float :=
    if (x =? 0)%float then inl ZeroDivisionError else inr (f / x)%float in
  match v with
  | VInt z => match float_of_int z with inr f => divide f | inl e => inl e end
  | VBool b => divide (if b then 1%float else 0%float)
  | VFloat f => divide f
  | _ => inl TypeError
  end.

Definition newline : string := String (ascii_of_nat 10) EmptyString.

(** [s * n] *)
Fixpoint str_mul (s : string) (n : nat) : string :=
  match n with O => EmptyString | S n' => s +:+ str_mul s n' end.

(** [str(z)] for an [int] *)
Definition str_int (z : Z) : string := pretty z.

End Py.

(** ** Runs: output, requests, exit status *)

Module IO.
Import Py.

(** The pieces of a printed line. A value interpolated into an f-string
    whose text the scripts do not fix (a [float], a JSON value, an
    exception) is kept as it is, next to the literal text. *)
Inductive piece : Type :=
  | Text (s : string)
  | Str (v : value)                   (* [{v}], [print(v)] *)
  | Fixed (digits : nat) (f : float)  (* [{f:.3f}] *)
  | Exn (e : exn)                     (* [{e}] *)
  | JsonDumps (v : value).            (* [json.dumps(v, indent=2)] *)

Inductive event : Type :=
  | Print (line : list piece)
  | ParserError (message : string)    (* usage and message on stderr *)
  | Get (url : string) (timeout : Z)
  | Post (url : string) (json : gmap string value) (timeout : Z).

Inductive outcome (A : Type) : Type :=
  | Ret (a : A)
  | Raised (e : exn)
  | Exited (code : Z).
Arguments Ret {A} a.
Arguments Raised {A} e.
Arguments Exited {A} code.

(** A run: the events in order and how it ended. *)
Definition prog (A : Type) : Type := list event * outcome A.

Definition trace {A} (p : prog A) : list event := p.1.
Definition result {A} (p : prog A) : outcome A := p.2.

Definition ret {A} (a : A) : prog A := ([], Ret a).

Definition bind {A B} (p : prog A) (k : A → prog B) : prog B :=
  match p.2 with
  | Ret a => (p.1 ++ (k a).1, (k a).2)
  | Raised e => (p.1, Raised e)
  | Exited c => (p.1, Exited c)
  end.

#[export] Instance prog_ret : MRet prog := @ret.
#[export] Instance prog_bind : MBind prog := λ A B k p, bind p k.

Definition emit (e : event) : prog unit := ([e], Ret ()).
Definition print (line : list piece) : prog unit := emit (Print line).
Definition raise {A} (e : exn) : prog A := ([], Raised e).
Definition sys_exit {A} (code : Z) : prog A := ([], Exited code).
Definition lift {A} (r : res A) : prog A :=
  match r with inr a => ret a | inl e => raise e end.
Definition when (b : bool) (p : prog unit) : prog unit :=
  if b then p else ret ().

(** [try: p  except E as e: h e], where [catches] tells which
    exceptions are an [E]. [sys.exit] raises [SystemExit], which no
    handler of the scripts catches. *)
Definition try_except {A} (catches : exn → bool) (p : prog A)
    (h : exn → prog A) : prog A :=
  match p.2 with
  | Raised e => if catches e then (p.1 ++ (h e).1, (h e).2) else p
  | _ => p
  end.

(** [except requests.exceptions.RequestException]: the
    [JSONDecodeError] that [response.json()] raises is one of them. *)
Definition is_request_exception (e : exn) : bool :=
  match e with RequestException _ | JSONDecodeError => true | _ => false end.

(** [except Exception] *)
Definition is_exception (e : exn) : bool := true.

(** The exit status of the process that runs [p] as its [main()]: an
    uncaught exception ends it with status 1. *)
Definition exit_code (p : prog unit) : Z :=
  match p.2 with Ret _ => 0 | Raised _ => 1 | Exited c => c end.

(** The payloads a run has posted, in order. *)
Definition posts (tr : list event) : list (gmap string value) :=
  omap (λ e, match e with Post _ payload _ => Some payload | _ => None end) tr.

(** The URLs a run has requested, in order. *)
Definition requests (tr : list event) : list string :=
  omap (λ e, match e with
             | Get url _ | Post url _ _ => Some url
             | _ => None
             end) tr.

(** The run ends by returning, neither raising nor exiting. *)
Definition returns {A} (p : prog A) : Prop := ∃ a, result p = Ret a.

(** [for x in l: body x] *)
Fixpoint for_each {A} (l : list A) (body : A → prog unit) : prog unit :=
  match l with
  | [] => ret ()
  | x :: l' => body x ;; for_each l' body
  end.

(** [parser.error(message)]: prints the usage and the message on
    stderr and exits with status 2. *)
Definition parser_error {A} (message : string) : prog A :=
  emit (ParserError message) ;; sys_exit 2.

(** What [requests] gives back for a request. *)
Inductive http_result : Type :=
  | Failed (msg : string)                     (* the call or [raise_for_status] raises *)
  | Body (json : option (gmap string value)). (* 2xx; [None]: the body is not JSON *)

(** The server and the clock. [elapsed] is the difference of the two
    [time.time()] readings around a POST. *)
Record network : Type := {
  http_get : string → http_result;
  http_post : string → gmap string value → http_result;
  elapsed : string → gmap string value → float;
}.

(** [response = requests.get(url, timeout=t); response.raise_for_status()] *)
Definition requests_get (net : network) (url : string) (timeout : Z)
    : prog (option (gmap string value)) :=
  emit (Get url timeout) ;;
  match http_get net url with
  | Failed msg => raise (RequestException msg)
  | Body b => ret b
  end.

(** [response = requests.post(url, headers=..., json=payload, timeout=t);
    response.raise_for_status()] *)
Definition requests_post (net : network) (url : string)
    (payload : gmap string value) (timeout : Z)
    : prog (option (gmap string value)) :=
  emit (Post url payload timeout) ;;
  match http_post net url payload with
  | Failed msg => raise (RequestException msg)
  | Body b => ret b
  end.

(** [response.json()] *)
Definition json (b : option (gmap string value)) : prog (gmap string value) :=
  match b with Some d => ret d | None => raise JSONDecodeError end.

End IO.

(** ** scripts/prompt_llm.py *)

Module PromptLlm.
Import Py IO.

Inductive Mode : Type := Completion | Chat.

#[export] Instance Mode_eq_dec : EqDecision Mode.
Proof. solve_decision. Defined.

Definition upper (m : Mode) : string :=
  match m with Completion => "COMPLETION" | Chat => "CHAT" end.

(** The namespace [parser.parse_args()] returns. *)
Module Args.
Record t : Type := {
  url : string;
  model : string;
  mode : Mode;                      (* choices=["completion", "chat"] *)
  prompt : option string;
  system : option string;
  user_message : option string;
  max_tokens : Z;
  min_tokens : Z;
  temperature : float;
  top_p : float;
  top_k : Z;
  frequency_penalty : float;
  presence_penalty : float;
  repetition_penalty : float;
  stop : option (list string);      (* nargs="+" *)
  n : Z;
  best_of : option Z;
  use_beam_search : bool;
  length_penalty : float;
  echo : bool;
  logprobs : option Z;
  stream : bool;
  show_metadata : bool;
  json : bool;
}.
End Args.

(** The parameters of [prompt_completion]. *)
Module Completion.
Record kwargs : Type := {
  base_url : string;
  model_name : string;
  prompt : string;
  max_tokens : Z;
  temperature : float;
  top_p : float;
  top_k : Z;
  frequency_penalty : float;
  presence_penalty : float;
  repetition_penalty : float;
  stop : option (list string);
  stream : bool;
  n : Z;
  best_of : option Z;
  logprobs : option Z;
  echo : bool;
  min_tokens : Z;
  use_beam_search : bool;
  length_penalty : float;
}.
End Completion.

(** The parameters of [prompt_chat]. *)
Module ChatCompletion.
Record kwargs : Type := {
  base_url : string;
  model_name : string;
  system_message : option string;
  user_message : string;
  max_tokens : Z;
  temperature : float;
  top_p : float;
  top_k : Z;
  frequency_penalty : float;
  presence_penalty : float;
  repetition_penalty : float;
  stop : option (list string);
  stream : bool;
  n : Z;
  logprobs : option Z;
}.
End ChatCompletion.

(** [if cond: payload[key] = v] *)
Definition set_if (cond : bool) (key : string) (v : value)
    (payload : gmap string value) : gmap string value :=
  if cond then <[key := v]> payload else payload.

(** The [payload] that [prompt_completion] posts. *)
Definition prompt_completion_payload (k : Completion.kwargs) : gmap string value :=
  let payload : gmap string value :=
    list_to_map [
      ("model", VStr (Completion.model_name k));
      ("prompt", VStr (Completion.prompt k));
      ("max_tokens", VInt (Completion.max_tokens k));
      ("temperature", VFloat (Completion.temperature k));
      ("top_p", VFloat (Completion.top_p k));
      ("frequency_penalty", VFloat (Completion.frequency_penalty k));
      ("presence_penalty", VFloat (Completion.presence_penalty k));
      ("stream", VBool (Completion.stream k));
      ("n", VInt (Completion.n k));
      ("echo", VBool (Completion.echo k))
    ] in
  let payload :=
    set_if (0 <? Completion.top_k k) "top_k" (VInt (Completion.top_k k)) payload in
  let payload :=
    set_if (negb (Completion.repetition_penalty k =? 1)%float)
      "repetition_penalty" (VFloat (Completion.repetition_penalty k)) payload in
  let payload :=
    set_if (truthy_strs (Completion.stop k))
      "stop" (optional_strs (Completion.stop k)) payload in
  let payload :=
    set_if (truthy_int (Completion.best_of k))
      "best_of" (optional (Completion.best_of k)) payload in
  let payload :=
    set_if (truthy_int (Completion.logprobs k))
      "logprobs" (optional (Completion.logprobs k)) payload in
  let payload :=
    set_if (0 <? Completion.min_tokens k)
      "min_tokens" (VInt (Completion.min_tokens k)) payload in
  let payload :=
    set_if (Completion.use_beam_search k)
      "use_beam_search" (VBool (Completion.use_beam_search k)) payload in
  let payload :=
    set_if (Completion.use_beam_search k)
      "length_penalty" (VFloat (Completion.length_penalty k)) payload in
  payload.

(** [except requests.exceptions.RequestException as e:] of both
    request functions. *)
Definition request_failed {A} (e : exn) : prog A :=
  print [Text "❌ Error: "; Exn e] ;; sys_exit 1.

Definition prompt_completion (net : network) (k : Completion.kwargs)
    : prog (gmap string value * float) :=
  let payload := prompt_completion_payload k in
  let url := Completion.base_url k +:+ "/v1/completions" in
  try_except is_request_exception
    (response ← requests_post net url payload 60;
     let elapsed_time := elapsed net url payload in
     body ← IO.json response;
     mret (body, elapsed_time))
    request_failed.

(** The [messages] list of [prompt_chat]. *)
Definition message (role : string) (content : value) : value :=
  VDict (list_to_map [("role", VStr role); ("content", content)]).

Definition chat_messages (k : ChatCompletion.kwargs) : list value :=
  let messages := [] in
  let messages :=
    if truthy_str (ChatCompletion.system_message k)
    then messages ++ [message "system" (optional_str (ChatCompletion.system_message k))]
    else messages in
  messages ++ [message "user" (VStr (ChatCompletion.user_message k))].

(** The [payload] that [prompt_chat] posts. *)
Definition prompt_chat_payload (k : ChatCompletion.kwargs) : gmap string value :=
  let payload : gmap string value :=
    list_to_map [
      ("model", VStr (ChatCompletion.model_name k));
      ("messages", VList (chat_messages k));
      ("max_tokens", VInt (ChatCompletion.max_tokens k));
      ("temperature", VFloat (ChatCompletion.temperature k));
      ("top_p", VFloat (ChatCompletion.top_p k));
      ("frequency_penalty", VFloat (ChatCompletion.frequency_penalty k));
      ("presence_penalty", VFloat (ChatCompletion.presence_penalty k));
      ("stream", VBool (ChatCompletion.stream k));
      ("n", VInt (ChatCompletion.n k))
    ] in
  let payload :=
    set_if (0 <? ChatCompletion.top_k k) "top_k" (VInt (ChatCompletion.top_k k)) payload in
  let payload :=
    set_if (negb (ChatCompletion.repetition_penalty k =? 1)%float)
      "repetition_penalty" (VFloat (ChatCompletion.repetition_penalty k)) payload in
  let payload :=
    set_if (truthy_strs (ChatCompletion.stop k))
      "stop" (optional_strs (ChatCompletion.stop k)) payload in
  let payload :=
    set_if (truthy_int (ChatCompletion.logprobs k))
      "logprobs" (optional (ChatCompletion.logprobs k)) payload in
  payload.

Definition prompt_chat (net : network) (k : ChatCompletion.kwargs)
    : prog (gmap string value * float) :=
  let payload := prompt_chat_payload k in
  let url := ChatCompletion.base_url k +:+ "/v1/chat/completions" in
  try_except is_request_exception
    (response ← requests_post net url payload 60;
     let elapsed_time := elapsed net url payload in
     body ← IO.json response;
     mret (body, elapsed_time))
    request_failed.

(** One round of the loop over [response["choices"]]; [content] is
    [choice["message"]["content"]] in chat mode and [choice["text"]]
    in completion mode, [count] is [len(response["choices"])]. *)
Definition print_choice (content : value → res value) (count : Z)
    (show_metadata : bool) (i : nat) (choice : value) : prog unit :=
  text ← lift (content choice);
  when (1 <? count)
    (print [Text (newline +:+ str_mul "=" 60)] ;;
     print [Text ("Completion " +:+ str_int (Z.of_nat i + 1) +:+ ":")] ;;
     print [Text (str_mul "=" 60)]) ;;
  print [Str text] ;;
  when show_metadata
    (print [Text (newline +:+ str_mul "─" 60)] ;;
     finish_reason ← lift (get choice "finish_reason" (VStr "N/A"));
     print [Text "Finish reason: "; Str finish_reason] ;;
     has_logprobs ← lift (contains "logprobs" choice);
     available ←
       (if has_logprobs : bool
        then logprobs ← lift (getitem choice "logprobs"); mret (truthy logprobs)
        else mret false);
     when available (print [Text "Logprobs available: Yes"])).

(** [if "choices" in response and len(response["choices"]) > 0: ... else: ...] *)
Definition print_choices (content : value → res value)
    (response : gmap string value) (show_metadata : bool) : prog unit :=
  match response !! "choices" with
  | Some choices =>
      count ← lift (len choices);
      if 0 <? count then
        items ← lift (iter choices);
        for_each (imap (λ i choice, (i, choice)) items)
          (λ ic, print_choice content count show_metadata ic.1 ic.2)
      else print [Text "❌ No response generated"]
  | None => print [Text "❌ No response generated"]
  end.

Definition chat_content (choice : value) : res value :=
  match getitem choice "message" with
  | inr message => getitem message "content"
  | inl e => inl e
  end.

Definition completion_content (choice : value) : res value :=
  getitem choice "text".

(** [if "usage" in response: ...], twice in [print_response]. *)
Definition with_usage (response : gmap string value)
    (body : value → prog unit) : prog unit :=
  match response !! "usage" with
  | Some usage => body usage
  | None => mret ()
  end.

(** [if show_metadata: ...], the last block of [print_response]. *)
Definition print_metadata (response : gmap string value) (elapsed_time : float)
    : prog unit :=
  print [Text (newline +:+ str_mul "─" 60)] ;;
  print [Text "Performance Metrics:"] ;;
  print [Text "  Request latency: "; Fixed 3 elapsed_time; Text "s"] ;;
  with_usage response (λ usage,
    completion_tokens ← lift (get usage "completion_tokens" (VInt 0));
    positive ← lift (gt_zero completion_tokens);
    when (positive && (0 <? elapsed_time)%float)
      (tokens_per_sec ← lift (truediv completion_tokens elapsed_time);
       print [Text "  Tokens per second: "; Fixed 2 tokens_per_sec])) ;;
  with_usage response (λ usage,
    print [Text (newline +:+ str_mul "─" 60)] ;;
    print [Text "Usage Statistics:"] ;;
    prompt_tokens ← lift (get usage "prompt_tokens" (VStr "N/A"));
    print [Text "  Prompt tokens: "; Str prompt_tokens] ;;
    completion_tokens ← lift (get usage "completion_tokens" (VStr "N/A"));
    print [Text "  Completion tokens: "; Str completion_tokens] ;;
    total_tokens ← lift (get usage "total_tokens" (VStr "N/A"));
    print [Text "  Total tokens: "; Str total_tokens]).

Definition print_response (response : gmap string value) (mode : Mode)
    (elapsed_time : float) (show_metadata : bool) : prog unit :=
  match mode with
  | Chat => print_choices chat_content response show_metadata
  | Completion => print_choices completion_content response show_metadata
  end ;;
  when show_metadata (print_metadata response elapsed_time).

Section Main.

(** Python's builtin [round(x, ndigits)] on a [float]. *)
Variable round : float → Z → float.

(** The value under ["tokens_per_second"]: a conditional expression,
    its condition an [and] that stops at the first false operand. *)
Definition tokens_per_second (response : gmap string value)
    (elapsed_time : float) : prog value :=
  let completion_tokens : res value :=
    get (default (VDict ∅) (response !! "usage")) "completion_tokens" (VInt 0) in
  if (0 <? elapsed_time)%float then
    tokens ← lift completion_tokens;
    positive ← lift (gt_zero tokens);
    if positive : bool then
      tokens ← lift completion_tokens;
      ratio ← lift (truediv tokens elapsed_time);
      mret (VFloat (round ratio 2))
    else mret VNone
  else mret VNone.

(** The dict that [--json] prints. *)
Definition response_with_timing (response : gmap string value)
    (elapsed_time : float) : prog (gmap string value) :=
  let response_with_timing := response in
  let request_latency_seconds := VFloat (round elapsed_time 3) in
  tokens_per_second ← tokens_per_second response elapsed_time;
  mret (<["_timing" := VDict (list_to_map [
            ("request_latency_seconds", request_latency_seconds);
            ("tokens_per_second", tokens_per_second)])]> response_with_timing).

(** [# Display configuration] *)
Definition display_configuration (args : Args.t) : prog unit :=
  print [Text (newline +:+ str_mul "=" 60)] ;;
  print [Text ("🤖 LLM Prompt - " +:+ upper (Args.mode args) +:+ " Mode")] ;;
  print [Text (str_mul "=" 60)] ;;
  print [Text ("URL: " +:+ Args.url args)] ;;
  print [Text ("Model: " +:+ Args.model args)] ;;
  print [Text ("Max tokens: " +:+ str_int (Args.max_tokens args))] ;;
  print [Text "Temperature: "; Str (VFloat (Args.temperature args))] ;;
  print [Text "Top-p: "; Str (VFloat (Args.top_p args))] ;;
  when (0 <? Args.top_k args)
    (print [Text ("Top-k: " +:+ str_int (Args.top_k args))]) ;;
  when (negb (Args.frequency_penalty args =? 0)%float)
    (print [Text "Frequency penalty: "; Str (VFloat (Args.frequency_penalty args))]) ;;
  when (negb (Args.presence_penalty args =? 0)%float)
    (print [Text "Presence penalty: "; Str (VFloat (Args.presence_penalty args))]) ;;
  when (negb (Args.repetition_penalty args =? 1)%float)
    (print [Text "Repetition penalty: "; Str (VFloat (Args.repetition_penalty args))]) ;;
  when (truthy_strs (Args.stop args))
    (print [Text "Stop sequences: "; Str (optional_strs (Args.stop args))]) ;;
  when (1 <? Args.n args)
    (print [Text ("Completions: " +:+ str_int (Args.n args))]) ;;
  print [Text (str_mul "=" 60 +:+ newline)].

(** [args.prompt] and [args.user_message] where they are passed on as
    a [str] parameter: the validation has exited unless they hold a
    non-empty [str]. *)
Definition validated (o : option string) : string := default "" o.

(** The keyword arguments [main] calls [prompt_chat] with; [stream]
    is [args.stream] as it stands at the call. *)
Definition chat_kwargs (args : Args.t) (stream : bool) : ChatCompletion.kwargs := {|
  ChatCompletion.base_url := Args.url args;
  ChatCompletion.model_name := Args.model args;
  ChatCompletion.system_message := Args.system args;
  ChatCompletion.user_message := validated (Args.user_message args);
  ChatCompletion.max_tokens := Args.max_tokens args;
  ChatCompletion.temperature := Args.temperature args;
  ChatCompletion.top_p := Args.top_p args;
  ChatCompletion.top_k := Args.top_k args;
  ChatCompletion.frequency_penalty := Args.frequency_penalty args;
  ChatCompletion.presence_penalty := Args.presence_penalty args;
  ChatCompletion.repetition_penalty := Args.repetition_penalty args;
  ChatCompletion.stop := Args.stop args;
  ChatCompletion.stream := stream;
  ChatCompletion.n := Args.n args;
  ChatCompletion.logprobs := Args.logprobs args;
|}.

(** The keyword arguments [main] calls [prompt_completion] with. *)
Definition completion_kwargs (args : Args.t) (stream : bool) : Completion.kwargs := {|
  Completion.base_url := Args.url args;
  Completion.model_name := Args.model args;
  Completion.prompt := validated (Args.prompt args);
  Completion.max_tokens := Args.max_tokens args;
  Completion.temperature := Args.temperature args;
  Completion.top_p := Args.top_p args;
  Completion.top_k := Args.top_k args;
  Completion.frequency_penalty := Args.frequency_penalty args;
  Completion.presence_penalty := Args.presence_penalty args;
  Completion.repetition_penalty := Args.repetition_penalty args;
  Completion.stop := Args.stop args;
  Completion.stream := stream;
  Completion.n := Args.n args;
  Completion.best_of := Args.best_of args;
  Completion.logprobs := Args.logprobs args;
  Completion.echo := Args.echo args;
  Completion.min_tokens := Args.min_tokens args;
  Completion.use_beam_search := Args.use_beam_search args;
  Completion.length_penalty := Args.length_penalty args;
|}.

(** [# Make request] *)
Definition make_request (args : Args.t) (stream : bool) (net : network)
    : prog (gmap string value * float) :=
  match Args.mode args with
  | Chat =>
      when (negb (Args.json args))
        (when (truthy_str (Args.system args))
           (print [Text "System: "; Str (optional_str (Args.system args))]) ;;
         print [Text "User: "; Str (optional_str (Args.user_message args)); Text newline] ;;
         print [Text (str_mul "─" 60)] ;;
         print [Text "Assistant:"]) ;;
      prompt_chat net (chat_kwargs args stream)
  | Completion =>
      when (negb (Args.json args))
        (print [Text "Prompt: "; Str (optional_str (Args.prompt args)); Text newline] ;;
         print [Text (str_mul "─" 60)] ;;
         print [Text "Response:"]) ;;
      prompt_completion net (completion_kwargs args stream)
  end.

(** [# Display response] *)
Definition display_response (args : Args.t) (response : gmap string value)
    (elapsed_time : float) : prog unit :=
  if Args.json args then
    response_with_timing ← response_with_timing response elapsed_time;
    print [JsonDumps (VDict response_with_timing)]
  else
    print_response response (Args.mode args) elapsed_time (Args.show_metadata args) ;;
    print [Text (newline +:+ str_mul "=" 60 +:+ newline)].

Definition main (args : Args.t) (net : network) : prog unit :=
  when (bool_decide (Args.mode args = Completion) && negb (truthy_str (Args.prompt args)))
    (parser_error "--prompt is required for completion mode") ;;
  when (bool_decide (Args.mode args = Chat) && negb (truthy_str (Args.user_message args)))
    (parser_error "--user-message is required for chat mode") ;;
  when (Args.stream args)
    (print [Text "⚠️  Warning: Streaming is not implemented in this script"]) ;;
  let stream := if Args.stream args then false else Args.stream args in
  when (negb (Args.json args)) (display_configuration args) ;;
  '(response, elapsed_time) ← make_request args stream net;
  display_response args response elapsed_time.

End Main.

End PromptLlm.

(** ** scripts/test_llm_api.py *)

Module TestLlmApi.
Import Py IO.

Record Args : Type := {
  url : string;
  model : string;
  skip_health : bool;
}.

Definition test_health (net : network) (base_url : string) : prog bool :=
  try_except is_exception
    (response ← requests_get net (base_url +:+ "/health") 5;
     print [Text "✅ Health check passed"] ;;
     mret true)
    (λ e, print [Text "❌ Health check failed: "; Exn e] ;; mret false).

(** [key in data and len(data[key]) > 0] *)
Definition non_empty (data : gmap string value) (key : string) : prog bool :=
  match data !! key with
  | Some items => count ← lift (len items); mret (0 <? count)
  | None => mret false
  end.

Definition test_list_models (net : network) (base_url : string) : prog bool :=
  try_except is_exception
    (response ← requests_get net (base_url +:+ "/v1/models") 5;
     data ← IO.json response;
     found ← non_empty data "data";
     if found : bool then
       models ← lift (getitem (VDict data) "data");
       first ← lift (getitem_index models 0);
       model_id ← lift (getitem first "id");
       print [Text "✅ Models endpoint working - found model: "; Str model_id] ;;
       mret true
     else
       print [Text "❌ No models found in response"] ;;
       mret false)
    (λ e, print [Text "❌ List models failed: "; Exn e] ;; mret false).

Definition test_chat_completion (net : network) (base_url model_name : string)
    : prog bool :=
  try_except is_exception
    (let payload : gmap string value :=
       list_to_map [
         ("model", VStr model_name);
         ("messages", VList [VDict (list_to_map [
            ("role", VStr "user");
            ("content", VStr "What is 2+2? Answer in one short sentence.")])]);
         ("max_tokens", VInt 50);
         ("temperature", VFloat 0.7)
       ] in
     response ← requests_post net (base_url +:+ "/v1/chat/completions") payload 30;
     data ← IO.json response;
     found ← non_empty data "choices";
     if found : bool then
       choices ← lift (getitem (VDict data) "choices");
       first ← lift (getitem_index choices 0);
       message ← lift (getitem first "message");
       content ← lift (getitem message "content");
       print [Text "✅ Chat completion working"] ;;
       print [Text "   Response: "; Str content] ;;
       mret true
     else
       print [Text "❌ No choices in response"] ;;
       mret false)
    (λ e, print [Text "❌ Chat completion failed: "; Exn e] ;; mret false).

Definition test_text_completion (net : network) (base_url model_name : string)
    : prog bool :=
  try_except is_exception
    (let payload : gmap string value :=
       list_to_map [
         ("model", VStr model_name);
         ("prompt", VStr "The capital of France is");
         ("max_tokens", VInt 10);
         ("temperature", VFloat 0.1)
       ] in
     response ← requests_post net (base_url +:+ "/v1/completions") payload 30;
     data ← IO.json response;
     found ← non_empty data "choices";
     if found : bool then
       choices ← lift (getitem (VDict data) "choices");
       first ← lift (getitem_index choices 0);
       text ← lift (getitem first "text");
       print [Text "✅ Text completion working"] ;;
       print [Text "   Response: "; Str text] ;;
       mret true
     else
       print [Text "❌ No choices in response"] ;;
       mret false)
    (λ e, print [Text "❌ Text completion failed: "; Exn e] ;; mret false).

(** [sum(1 for _, success in results if success)] *)
Definition count_passed (results : list (string * bool)) : Z :=
  foldr Z.add 0 ((λ _, 1) <$> List.filter snd results).

(** [# Summary] and the exit. *)
Definition summary (results : list (string * bool)) : prog unit :=
  print [Text (newline +:+ str_mul "=" 50)] ;;
  print [Text "Test Summary:"] ;;
  print [Text (str_mul "=" 50)] ;;
  let passed := count_passed results in
  let total := Z.of_nat (length results) in
  for_each results (λ r,
    let status := if r.2 then "✅ PASS" else "❌ FAIL" in
    print [Text (status +:+ " - " +:+ r.1)]) ;;
  print [Text (newline +:+ "Total: " +:+ str_int passed +:+ "/" +:+ str_int total
               +:+ " tests passed")] ;;
  print [Text (str_mul "=" 50 +:+ newline)] ;;
  sys_exit (if passed =? total then 0 else 1).

Definition main (args : Args) (net : network) : prog unit :=
  print [Text (newline +:+ "🧪 Testing LLM API at: " +:+ url args +:+ newline)] ;;
  let results : list (string * bool) := [] in
  results ←
    (if negb (skip_health args)
     then ok ← test_health net (url args); mret (results ++ [("Health", ok)])
     else mret results);
  ok ← test_list_models net (url args);
  let results := results ++ [("List Models", ok)] in
  ok ← test_chat_completion net (url args) (model args);
  let results := results ++ [("Chat Completion", ok)] in
  ok ← test_text_completion net (url args) (model args);
  let results := results ++ [("Text Completion", ok)] in
  summary results.

End TestLlmApi.

(** ** Inputs the statements are tried on *)

Module Samples.
Import Py IO PromptLlm.

(** [prompt_completion(base_url, model_name, prompt)] with every other
    parameter at the default of the signature. *)
Definition completion_defaults (base_url model_name prompt : string)
    : Completion.kwargs := {|
  Completion.base_url := base_url;
  Completion.model_name := model_name;
  Completion.prompt := prompt;
  Completion.max_tokens := 512;
  Completion.temperature := 0.7;
  Completion.top_p := 1;
  Completion.top_k := -1;
  Completion.frequency_penalty := 0;
  Completion.presence_penalty := 0;
  Completion.repetition_penalty := 1;
  Completion.stop := None;
  Completion.stream := false;
  Completion.n := 1;
  Completion.best_of := None;
  Completion.logprobs := None;
  Completion.echo := false;
  Completion.min_tokens := 0;
  Completion.use_beam_search := false;
  Completion.length_penalty := 1;
|}.

(** [k] with some keyword arguments replaced. *)
Definition with_sampling (top_k : Z) (best_of logprobs : option Z)
    (use_beam_search : bool) (k : Completion.kwargs) : Completion.kwargs := {|
  Completion.base_url := Completion.base_url k;
  Completion.model_name := Completion.model_name k;
  Completion.prompt := Completion.prompt k;
  Completion.max_tokens := Completion.max_tokens k;
  Completion.temperature := Completion.temperature k;
  Completion.top_p := Completion.top_p k;
  Completion.top_k := top_k;
  Completion.frequency_penalty := Completion.frequency_penalty k;
  Completion.presence_penalty := Completion.presence_penalty k;
  Completion.repetition_penalty := Completion.repetition_penalty k;
  Completion.stop := Completion.stop k;
  Completion.stream := Completion.stream k;
  Completion.n := Completion.n k;
  Completion.best_of := best_of;
  Completion.logprobs := logprobs;
  Completion.echo := Completion.echo k;
  Completion.min_tokens := Completion.min_tokens k;
  Completion.use_beam_search := use_beam_search;
  Completion.length_penalty := Completion.length_penalty k;
|}.

Definition with_best_of (best_of : option Z) (k : Completion.kwargs) :=
  with_sampling (Completion.top_k k) best_of (Completion.logprobs k)
    (Completion.use_beam_search k) k.

Definition with_logprobs (logprobs : option Z) (k : Completion.kwargs) :=
  with_sampling (Completion.top_k k) (Completion.best_of k) logprobs
    (Completion.use_beam_search k) k.

(** [prompt_chat(base_url, model_name, system_message, user_message,
    top_k=top_k, logprobs=logprobs)], the rest at its default. *)
Definition chat_call (base_url model_name : string) (system_message : option string)
    (user_message : string) (top_k : Z) (logprobs : option Z)
    : ChatCompletion.kwargs := {|
  ChatCompletion.base_url := base_url;
  ChatCompletion.model_name := model_name;
  ChatCompletion.system_message := system_message;
  ChatCompletion.user_message := user_message;
  ChatCompletion.max_tokens := 512;
  ChatCompletion.temperature := 0.7;
  ChatCompletion.top_p := 1;
  ChatCompletion.top_k := top_k;
  ChatCompletion.frequency_penalty := 0;
  ChatCompletion.presence_penalty := 0;
  ChatCompletion.repetition_penalty := 1;
  ChatCompletion.stop := None;
  ChatCompletion.stream := false;
  ChatCompletion.n := 1;
  ChatCompletion.logprobs := logprobs;
|}.

Definition localhost : string := "http://localhost:8000".
Definition llama : string := "meta-llama/Meta-Llama-3.1-8B-Instruct".

(** The namespace of a command line that gives at most [--mode],
    [--prompt], [--system], [--user-message], [--best-of], [--stream],
    [--show-metadata] and [--json]: the other options at the defaults
    [main] declares. *)
Definition command_line (mode : Mode) (prompt system user_message : option string)
    (best_of : option Z) (stream show_metadata json : bool) : Args.t := {|
  Args.url := localhost;
  Args.model := llama;
  Args.mode := mode;
  Args.prompt := prompt;
  Args.system := system;
  Args.user_message := user_message;
  Args.max_tokens := 512;
  Args.min_tokens := 0;
  Args.temperature := 0.7;
  Args.top_p := 1;
  Args.top_k := -1;
  Args.frequency_penalty := 0;
  Args.presence_penalty := 0;
  Args.repetition_penalty := 1;
  Args.stop := None;
  Args.n := 1;
  Args.best_of := best_of;
  Args.use_beam_search := false;
  Args.length_penalty := 1;
  Args.echo := false;
  Args.logprobs := None;
  Args.stream := stream;
  Args.show_metadata := show_metadata;
  Args.json := json;
|}.

(** No server: every request fails. *)
Definition offline : network := {|
  http_get _ := Failed "Connection refused";
  http_post _ _ := Failed "Connection refused";
  elapsed _ _ := 0%float;
|}.

(** A mocked server: every request is answered with [response], every
    POST after [seconds]. *)
Definition mock (response : gmap string value) (seconds : float) : network := {|
  http_get _ := Body (Some response);
  http_post _ _ := Body (Some response);
  elapsed _ _ := seconds;
|}.

Definition usage (prompt_tokens completion_tokens total_tokens : Z) : value :=
  VDict (list_to_map [
    ("prompt_tokens", VInt prompt_tokens);
    ("completion_tokens", VInt completion_tokens);
    ("total_tokens", VInt total_tokens)]).

(** A response with zero choices. *)
Definition zero_choices : gmap string value :=
  list_to_map [("choices", VList []); ("usage", usage 5 0 5)].

(** A completion of three tokens. *)
Definition paris : gmap string value :=
  list_to_map [
    ("choices", VList [VDict (list_to_map [
       ("text", VStr " Paris"); ("finish_reason", VStr "stop")])]);
    ("usage", usage 5 3 8)].

(** [round] on the floats of the trials, which have no more decimals
    than asked for: it gives them back. *)
Definition round_stub (x : float) (ndigits : Z) : float := x.


Definition chat_body : gmap string value :=
  list_to_map [
    ("choices", VList [VDict (list_to_map [
       ("message", VDict (list_to_map [
          ("role", VStr "assistant"); ("content", VStr "2+2 is 4.")]));
       ("finish_reason", VStr "stop")])]);
    ("usage", usage 5 3 8)].


(** [--mode chat --user-message Hello] with the options that belong to
    completion mode given as well: [--prompt], [--min-tokens 5],
    [--best-of 3], [--use-beam-search], [--length-penalty 2.0], [--echo]. *)
Definition chat_with_completion_options : Args.t := {|
  Args.url := localhost;
  Args.model := llama;
  Args.mode := Chat;
  Args.prompt := Some "ignored";
  Args.system := None;
  Args.user_message := Some "Hello";
  Args.max_tokens := 512;
  Args.min_tokens := 5;
  Args.temperature := 0.7;
  Args.top_p := 1;
  Args.top_k := -1;
  Args.frequency_penalty := 0;
  Args.presence_penalty := 0;
  Args.repetition_penalty := 1;
  Args.stop := None;
  Args.n := 1;
  Args.best_of := Some 3;
  Args.use_beam_search := true;
  Args.length_penalty := 2;
  Args.echo := true;
  Args.logprobs := None;
  Args.stream := false;
  Args.show_metadata := false;
  Args.json := false;
|}.

(** Two completions, as [--n 2] gets them. *)
Definition two_choices : gmap string value :=
  list_to_map [
    ("choices", VList [
       VDict (list_to_map [("text", VStr " Paris"); ("finish_reason", VStr "stop")]);
       VDict (list_to_map [("text", VStr " Lyon"); ("finish_reason", VStr "length")])]);
    ("usage", usage 5 6 11)].

(** A response with zero choices whose [usage] is [null]. *)
Definition zero_choices_null_usage : gmap string value :=
  list_to_map [("choices", VList []); ("usage", VNone)].

(** [--prompt "The capital of France is" --json] *)
Definition json_command_line : Args.t :=
  command_line Completion (Some "The capital of France is") None None None
    false false true.

(** A response whose [usage] is [null]. *)
Definition null_usage : gmap string value :=
  list_to_map [
    ("choices", VList [VDict (list_to_map [("text", VStr " Paris")])]);
    ("usage", VNone)].


End Samples.

(** ** What the statements ask of their inputs *)

Module Domain.
Import Py PromptLlm.

(** A token count: a number, and one that [float()] takes. *)
Definition token_count (v : value) : bool :=
  match v with
  | VInt z => match float_of_int z with inr _ => true | inl _ => false end
  | VBool _ | VFloat _ => true
  | _ => false
  end.

(** The [usage] of a response as the API has it: missing, or an object
    whose [completion_tokens], when there, is a token count. *)
Definition usage_ok (response : gmap string value) : bool :=
  match response !! "usage" with
  | None => true
  | Some (VDict usage) =>
      match usage !! "completion_tokens" with
      | None => true
      | Some v => token_count v
      end
  | Some _ => false
  end.

(** A count the arithmetic of the scripts takes: a number of JSON, and,
    when it is a positive [int], one within the range of [float]. *)
Definition float_takes (v : value) : bool :=
  match v with
  | VInt z =>
      (z <=? 0) || negb (is_infinity (SF2Prim (binary_normalize prec emax z 0 false)))
  | VBool _ | VFloat _ => true
  | _ => false
  end.

(** The [usage] of a response is missing, or an object whose
    [completion_tokens] is missing or such a count. *)
Definition numeric_usage (response : gmap string value) : bool :=
  match response !! "usage" with
  | None => true
  | Some (VDict usage) =>
      match usage !! "completion_tokens" with
      | None => true
      | Some v => float_takes v
      end
  | Some _ => false
  end.

(** [usage.completion_tokens], 0 when [usage] or the count is missing. *)
Definition completion_tokens (response : gmap string value) : value :=
  match response !! "usage" with
  | Some (VDict usage) => default (VInt 0) (usage !! "completion_tokens")
  | _ => VInt 0
  end.

(** [v > 0] for a token count. *)
Definition positive (v : value) : bool :=
  match gt_zero v with inr b => b | inl _ => false end.

(** The command line passes the validation of [main]: it has the
    argument its mode requires. *)
Definition has_required_argument (args : Args.t) : bool :=
  match Args.mode args with
  | Completion => truthy_str (Args.prompt args)
  | Chat => truthy_str (Args.user_message args)
  end.

End Domain.

(** ** What a run shows *)

Module Observe.
Import Py IO PromptLlm.

(** The requests of a run, in order: URL and timeout. *)
Definition calls (tr : list event) : list (string * Z) :=
  omap (λ e, match e with
             | Get url timeout | Post url _ timeout => Some (url, timeout)
             | _ => None
             end) tr.

(** The lines a run has printed on stdout, in order. *)
Definition printed (tr : list event) : list (list piece) :=
  omap (λ e, match e with Print line => Some line | _ => None end) tr.

(** The run has done nothing but print. *)
Definition only_prints (tr : list event) : Prop :=
  Forall (λ e, match e with Print _ => True | _ => False end) tr.

(** The endpoint [main] posts to. *)
Definition endpoint (args : Args.t) : string :=
  match Args.mode args with
  | Completion => Args.url args +:+ "/v1/completions"
  | Chat => Args.url args +:+ "/v1/chat/completions"
  end.

(** The payload [main] posts. *)
Definition payload (args : Args.t) : gmap string value :=
  match Args.mode args with
  | Completion => prompt_completion_payload (completion_kwargs args false)
  | Chat => prompt_chat_payload (chat_kwargs args false)
  end.

(** The request of [main], by mode. *)
Definition request_of (args : Args.t) (net : network)
    : prog (gmap string value * float) :=
  match Args.mode args with
  | Completion => prompt_completion net (completion_kwargs args false)
  | Chat => prompt_chat net (chat_kwargs args false)
  end.

End Observe.

(** ** What the renderer is to print *)

Module Expected.
Import Py IO PromptLlm Domain.

Definition is_dict (v : value) : bool :=
  match v with VDict _ => true | _ => false end.

(** The text of a choice in a mode: [choice["message"]["content"]] or
    [choice["text"]]. *)
Definition content (mode : Mode) (choice : value) : res value :=
  match mode with
  | Chat => chat_content choice
  | Completion => completion_content choice
  end.

(** The choices of a response are all of the shape of the mode. *)
Definition choices_ok (mode : Mode) (response : gmap string value) : bool :=
  match response !! "choices" with
  | None => true
  | Some (VList choices) =>
      forallb (λ choice, match content mode choice with
                         | inr _ => true
                         | inl _ => false
                         end) choices
  | Some _ => false
  end.

(** The banner before choice [i] (counted from 0) of several. *)
Definition banner (i : nat) : list event :=
  [Print [Text (newline +:+ str_mul "=" 60)];
   Print [Text ("Completion " +:+ str_int (Z.of_nat i + 1) +:+ ":")];
   Print [Text (str_mul "=" 60)]].

(** The output for the texts of the choices, without metadata. *)
Definition plain (texts : list value) : list event :=
  mjoin (imap (λ i text,
                 (if 1 <? Z.of_nat (length texts) then banner i else [])
                 ++ [Print [Str text]]) texts).

(** The head of the metadata block. *)
Definition metrics_header (elapsed_time : float) : list event :=
  [Print [Text (newline +:+ str_mul "─" 60)];
   Print [Text "Performance Metrics:"];
   Print [Text "  Request latency: "; Fixed 3 elapsed_time; Text "s"]].

(** A count is greater than 0, number by number: an [int] above 0,
    [True], a [float] above 0.0. *)
Definition is_positive (v : value) : bool :=
  match v with
  | VInt z => 0 <? z
  | VBool b => b
  | VFloat f => (0 <? f)%float
  | _ => false
  end.

(** The [float] a count is divided as: the nearest one to an [int], 1.0
    and 0.0 for [True] and [False]. *)
Definition as_float (v : value) : option float :=
  match v with
  | VInt z => Some (SF2Prim (binary_normalize prec emax z 0 false))
  | VBool b => Some (if b then 1%float else 0%float)
  | VFloat f => Some f
  | _ => None
  end.

(** The throughput, when there is one: the count over the seconds, if
    both are greater than 0. *)
Definition throughput (tokens : value) (elapsed_time : float) : option float :=
  if (0 <? elapsed_time)%float && is_positive tokens
  then (λ x, x / elapsed_time)%float <$> as_float tokens
  else None.

(** The throughput line, when there is one. *)
Definition speed_lines (tokens : value) (elapsed_time : float) : list event :=
  match throughput tokens elapsed_time with
  | Some ratio => [Print [Text "  Tokens per second: "; Fixed 2 ratio]]
  | None => []
  end.

(** What [tokens_per_second] is to be in the JSON output: the
    throughput rounded to 2 decimals, [null] when there is none. *)
Definition expected_tokens_per_second (round : float → Z → float)
    (response : gmap string value) (elapsed_time : float) : value :=
  match throughput (completion_tokens response) elapsed_time with
  | Some ratio => VFloat (round ratio 2)
  | None => VNone
  end.

(** The usage statistics of a [usage] object. *)
Definition usage_lines (usage : gmap string value) : list event :=
  [Print [Text (newline +:+ str_mul "─" 60)];
   Print [Text "Usage Statistics:"];
   Print [Text "  Prompt tokens: "; Str (default (VStr "N/A") (usage !! "prompt_tokens"))];
   Print [Text "  Completion tokens: ";
          Str (default (VStr "N/A") (usage !! "completion_tokens"))];
   Print [Text "  Total tokens: "; Str (default (VStr "N/A") (usage !! "total_tokens"))]].

(** What the probes of the harness look for in a body. *)

(** [body[key][0]], when [body[key]] is a non-empty list. *)
Definition first_of (key : string) (body : gmap string value) : option value :=
  match body !! key with
  | Some (VList (item :: _)) => Some item
  | _ => None
  end.

(** [body["data"][0]["id"]] is there. *)
Definition lists_a_model (body : gmap string value) : bool :=
  match first_of "data" body with
  | Some (VDict model) => bool_decide (is_Some (model !! "id"))
  | _ => false
  end.

(** [body["choices"][0]["message"]["content"]] is there. *)
Definition has_chat_content (body : gmap string value) : bool :=
  match first_of "choices" body with
  | Some (VDict choice) =>
      match choice !! "message" with
      | Some (VDict message) => bool_decide (is_Some (message !! "content"))
      | _ => false
      end
  | _ => false
  end.

(** [body["choices"][0]["text"]] is there. *)
Definition has_text (body : gmap string value) : bool :=
  match first_of "choices" body with
  | Some (VDict choice) => bool_decide (is_Some (choice !! "text"))
  | _ => false
  end.

(** A request succeeded and its JSON body has what the probe looks for. *)
Definition answers (looks_for : gmap string value → bool) (r : http_result) : bool :=
  match r with
  | Body (Some body) => looks_for body
  | _ => false
  end.

End Expected.

(** * Properties *)

Import Py IO PromptLlm Samples Domain Observe Expected.

(** ** Runs step by step *)

Section Runs.
Context {A B : Type}.
Implicit Types (p : prog A) (k : A → prog B).

Lemma bind_Ret p k a :
  result p = Ret a → p ≫= k = (trace p ++ trace (k a), result (k a)).
Proof. unfold mbind, prog_bind, bind, result, trace. by intros ->. Qed.

Lemma bind_Raised p k e : result p = Raised e → p ≫= k = (trace p, Raised e).
Proof. unfold mbind, prog_bind, bind, result, trace. by intros ->. Qed.

Lemma bind_Exited p k c : result p = Exited c → p ≫= k = (trace p, Exited c).
Proof. unfold mbind, prog_bind, bind, result, trace. by intros ->. Qed.

(** What a run has done stays done: the trace of [p] starts the trace
    of [p ≫= k]. *)
Lemma trace_bind_prefix p k : ∃ rest, trace (p ≫= k) = trace p ++ rest.
Proof.
  destruct (result p) as [a|e|c] eqn:Hp.
  - rewrite (bind_Ret _ _ a Hp). by eexists.
  - rewrite (bind_Raised _ _ e Hp). exists []. by rewrite app_nil_r.
  - rewrite (bind_Exited _ _ c Hp). exists []. by rewrite app_nil_r.
Qed.

Lemma returns_bind p k :
  returns p → (∀ a, result p = Ret a → returns (k a)) → returns (p ≫= k).
Proof.
  intros [a Ha] Hk. rewrite (bind_Ret _ _ a Ha). by apply Hk.
Qed.

Lemma posts_bind_Ret p k a :
  result p = Ret a → posts (trace (p ≫= k)) = posts (trace p) ++ posts (trace (k a)).
Proof. intros Hp. rewrite (bind_Ret _ _ a Hp). apply omap_app. Qed.

Lemma elem_of_posts_bind p k payload :
  payload ∈ posts (trace (p ≫= k)) →
  payload ∈ posts (trace p) ∨ ∃ a, result p = Ret a ∧ payload ∈ posts (trace (k a)).
Proof.
  destruct (result p) as [a|e|c] eqn:Hp.
  - rewrite (posts_bind_Ret _ _ a Hp).
    intros [?|?]%elem_of_app; [by left|right; eauto].
  - rewrite (bind_Raised _ _ e Hp). by left.
  - rewrite (bind_Exited _ _ c Hp). by left.
Qed.

Lemma elem_of_posts_bind_quiet p k payload :
  posts (trace p) = [] → payload ∈ posts (trace (p ≫= k)) →
  ∃ a, result p = Ret a ∧ payload ∈ posts (trace (k a)).
Proof.
  intros Hp [Hin|Hin]%elem_of_posts_bind; [|done].
  rewrite Hp in Hin. by apply elem_of_nil in Hin.
Qed.

End Runs.

Lemma returns_ret {A} (a : A) : returns (mret a : prog A).
Proof. by exists a. Qed.

Lemma returns_print (line : list piece) : returns (print line).
Proof. by exists (). Qed.

Lemma returns_when (b : bool) (p : prog unit) :
  (b = true → returns p) → returns (when b p).
Proof. destruct b; [auto|intros _; by exists ()]. Qed.

Lemma returns_lift {A} (a : A) : returns (lift (inr a)).
Proof. by exists a. Qed.

Lemma result_lift {A} (r : res A) (a : A) : result (lift r) = Ret a → r = inr a.
Proof. destruct r; simpl; [done|]. by intros [= ->]. Qed.

(** A run that posts nothing. *)
Lemma no_posts_bind {A B} (p : prog A) (k : A → prog B) :
  posts (trace p) = [] → (∀ a, posts (trace (k a)) = []) → posts (trace (p ≫= k)) = [].
Proof.
  intros Hp Hk. apply elem_of_nil_inv. intros payload Hin.
  apply elem_of_posts_bind in Hin as [Hin|(a & _ & Hin)].
  - rewrite Hp in Hin. by apply elem_of_nil in Hin.
  - rewrite Hk in Hin. by apply elem_of_nil in Hin.
Qed.

Lemma no_posts_when (b : bool) (p : prog unit) :
  posts (trace p) = [] → posts (trace (when b p)) = [].
Proof. by destruct b. Qed.

Lemma no_posts_lift {A} (r : res A) : posts (trace (lift r)) = [].
Proof. by destruct r. Qed.

Lemma no_posts_for_each {A} (l : list A) (body : A → prog unit) :
  (∀ x, posts (trace (body x)) = []) → posts (trace (for_each l body)) = [].
Proof.
  intros Hbody. induction l as [|x l IH]; [done|].
  simpl. by apply no_posts_bind.
Qed.

(** Discharges [posts (trace p) = []] for a run built from prints,
    dynamic operations, conditionals and loops. *)
Ltac no_posts :=
  repeat first
    [ reflexivity
    | apply no_posts_lift
    | apply no_posts_bind; [|intros ?]
    | apply no_posts_when
    | apply no_posts_for_each; intros ?
    | match goal with
      | |- context [match ?x with _ => _ end] => destruct x
      end ].

Lemma no_posts_print_response response mode elapsed_time show_metadata :
  posts (trace (print_response response mode elapsed_time show_metadata)) = [].
Proof.
  unfold print_response, print_choices, print_choice, print_metadata, with_usage.
  no_posts.
Qed.

(** ** Reading a payload *)

Lemma lookup_set_if_ne (cond : bool) (key key' : string) (v : value)
    (payload : gmap string value) :
  key ≠ key' → set_if cond key v payload !! key' = payload !! key'.
Proof.
  intros Hne. unfold set_if. destruct cond; [|done].
  by rewrite lookup_insert_ne.
Qed.

Lemma lookup_set_if_eq (cond : bool) (key : string) (v : value)
    (payload : gmap string value) :
  set_if cond key v payload !! key = if cond then Some v else payload !! key.
Proof.
  unfold set_if. destruct cond; [|done]. by rewrite lookup_insert_eq.
Qed.

(** Looks a literal key up in a payload: walks through the conditional
    assignments, then evaluates the lookup in the dict display. *)
Ltac payload_lookup :=
  unfold prompt_completion_payload, prompt_chat_payload; cbv zeta;
  repeat first
    [ rewrite lookup_set_if_eq
    | rewrite lookup_set_if_ne by (intros ?; discriminate) ];
  try (vm_compute (list_to_map _ !! _)).

Lemma lookup_display (items : list (string * value)) (key : string) :
  is_Some ((list_to_map items : gmap string value) !! key) → key ∈ items.*1.
Proof.
  intros [v Hv]. apply list_elem_of_fmap. exists (key, v). split; [done|].
  by apply elem_of_list_to_map_2.
Qed.

Lemma truthy_int_spec (o : option Z) :
  truthy_int o = true ↔ ∃ z, o = Some z ∧ z ≠ 0.
Proof.
  destruct o as [z|]; simpl.
  - rewrite negb_true_iff, Z.eqb_neq. split; [eauto|]. by intros (? & [= <-] & ?).
  - split; [done|]. by intros (? & ? & ?).
Qed.

Lemma truthy_strs_spec (o : option (list string)) :
  truthy_strs o = false ↔ o = None ∨ o = Some [].
Proof. destruct o as [[|? ?]|]; simpl; intuition congruence. Qed.

Lemma truthy_str_spec (o : option string) :
  truthy_str o = false ↔ o = None ∨ o = Some "".
Proof.
  destruct o as [s|]; simpl; [|intuition congruence].
  rewrite negb_false_iff, String.eqb_eq. intuition congruence.
Qed.

Lemma is_Some_if {A} (b : bool) (x : A) :
  is_Some (if b then Some x else None) ↔ b = true.
Proof. destruct b; split; (done || by intros [? ?] || eauto). Qed.

Lemma completion_top_k (k : Completion.kwargs) :
  prompt_completion_payload k !! "top_k"
  = if 0 <? Completion.top_k k then Some (VInt (Completion.top_k k)) else None.
Proof. by payload_lookup. Qed.

Lemma chat_top_k (k : ChatCompletion.kwargs) :
  prompt_chat_payload k !! "top_k"
  = if 0 <? ChatCompletion.top_k k then Some (VInt (ChatCompletion.top_k k)) else None.
Proof. by payload_lookup. Qed.

Lemma completion_best_of (k : Completion.kwargs) :
  prompt_completion_payload k !! "best_of"
  = if truthy_int (Completion.best_of k)
    then Some (optional (Completion.best_of k)) else None.
Proof. by payload_lookup. Qed.

Lemma completion_logprobs (k : Completion.kwargs) :
  prompt_completion_payload k !! "logprobs"
  = if truthy_int (Completion.logprobs k)
    then Some (optional (Completion.logprobs k)) else None.
Proof. by payload_lookup. Qed.

Lemma chat_best_of (k : ChatCompletion.kwargs) :
  prompt_chat_payload k !! "best_of" = None.
Proof. by payload_lookup. Qed.

Lemma chat_logprobs (k : ChatCompletion.kwargs) :
  prompt_chat_payload k !! "logprobs"
  = if truthy_int (ChatCompletion.logprobs k)
    then Some (optional (ChatCompletion.logprobs k)) else None.
Proof. by payload_lookup. Qed.

Lemma completion_stream (k : Completion.kwargs) :
  prompt_completion_payload k !! "stream" = Some (VBool (Completion.stream k)).
Proof. by payload_lookup. Qed.

Lemma chat_stream (k : ChatCompletion.kwargs) :
  prompt_chat_payload k !! "stream" = Some (VBool (ChatCompletion.stream k)).
Proof. by payload_lookup. Qed.

(** ** The optional keys of the payloads *)

(** C9. Both [prompt_completion] and [prompt_chat] put the key [top_k]
    into the payload exactly when [top_k > 0]; [top_k = 0], which is
    neither the default [-1] nor positive, is left out like the default. *)
Theorem top_k_included_iff_positive
    (kc : Completion.kwargs) (kh : ChatCompletion.kwargs) :
  (is_Some (prompt_completion_payload kc !! "top_k") ↔ 0 < Completion.top_k kc)
  ∧ (is_Some (prompt_chat_payload kh !! "top_k") ↔ 0 < ChatCompletion.top_k kh)
  ∧ (Completion.top_k kc = 0 → prompt_completion_payload kc !! "top_k" = None)
  ∧ (ChatCompletion.top_k kh = 0 → prompt_chat_payload kh !! "top_k" = None).
Proof.
  rewrite completion_top_k, chat_top_k, !is_Some_if, !Z.ltb_lt.
  repeat split; try done; by intros ->.
Qed.

Lemma top_k_included_iff_positive_witness :
  prompt_completion_payload
    (with_sampling 0 None None false (completion_defaults localhost llama "Hello"))
    !! "top_k" = None
  ∧ prompt_chat_payload (chat_call localhost llama None "Hello" 0 None) !! "top_k" = None.
Proof.
  pose proof (top_k_included_iff_positive
    (with_sampling 0 None None false (completion_defaults localhost llama "Hello"))
    (chat_call localhost llama None "Hello" 0 None)) as (_ & _ & Hc & Hh).
  split; [apply Hc | apply Hh]; reflexivity.
Defined.

(** C10. [prompt_completion] includes [best_of] and [logprobs] only for
    a truthy value: [best_of = 0] or [logprobs = 0], set but falsy,
    gives the very payload that [None] gives. *)
Theorem falsy_best_of_and_logprobs_omitted (k : Completion.kwargs) :
  (is_Some (prompt_completion_payload k !! "best_of")
     ↔ ∃ z, Completion.best_of k = Some z ∧ z ≠ 0)
  ∧ (is_Some (prompt_completion_payload k !! "logprobs")
     ↔ ∃ z, Completion.logprobs k = Some z ∧ z ≠ 0)
  ∧ prompt_completion_payload (with_best_of (Some 0) k)
    = prompt_completion_payload (with_best_of None k)
  ∧ prompt_completion_payload (with_logprobs (Some 0) k)
    = prompt_completion_payload (with_logprobs None k).
Proof.
  rewrite completion_best_of, completion_logprobs, !is_Some_if, !truthy_int_spec.
  repeat split; try done.
Qed.

Lemma falsy_best_of_and_logprobs_omitted_witness :
  prompt_completion_payload
    (with_best_of (Some 0) (completion_defaults localhost llama "Hello")) !! "best_of"
  = None.
Proof.
  pose proof (falsy_best_of_and_logprobs_omitted
    (with_best_of (Some 0) (completion_defaults localhost llama "Hello")))
    as (Hbest & _).
  destruct (prompt_completion_payload _ !! "best_of") as [v|] eqn:Hv; [|done].
  destruct Hbest as [Hbest _].
  destruct (Hbest (ex_intro _ v eq_refl)) as (z & [= <-] & Hz). by destruct Hz.
Defined.

(** C7. The [messages] of a chat payload are, read key by key: an entry
    whose [role] is ["system"] and whose [content] is the system
    message, followed by one entry whose [role] is ["user"] and whose
    [content] is the user message, when a non-empty system message is
    given; that user entry alone otherwise. An entry has no other key,
    and the list no other entry. *)
Theorem chat_messages_shape (k : ChatCompletion.kwargs) :
  ∃ user : gmap string value,
    user !! "role" = Some (VStr "user")
    ∧ user !! "content" = Some (VStr (ChatCompletion.user_message k))
    ∧ (∀ key, is_Some (user !! key) → key = "role" ∨ key = "content")
    ∧ (∀ s, ChatCompletion.system_message k = Some s → s ≠ "" →
       ∃ system : gmap string value,
         system !! "role" = Some (VStr "system")
         ∧ system !! "content" = Some (VStr s)
         ∧ (∀ key, is_Some (system !! key) → key = "role" ∨ key = "content")
         ∧ prompt_chat_payload k !! "messages"
           = Some (VList [VDict system; VDict user]))
    ∧ (ChatCompletion.system_message k = None
       ∨ ChatCompletion.system_message k = Some "" →
       prompt_chat_payload k !! "messages" = Some (VList [VDict user])).
Proof.
  assert (∀ role content key,
            is_Some ((list_to_map [("role", VStr role); ("content", content)]
                      : gmap string value) !! key) →
            key = "role" ∨ key = "content") as Hkeys.
  { intros role content key Hkey%lookup_display. simpl in Hkey.
    apply elem_of_cons in Hkey as [->|Hkey]; [by left|].
    apply elem_of_cons in Hkey as [->|Hkey]; [by right|].
    by apply elem_of_nil in Hkey. }
  assert (prompt_chat_payload k !! "messages" = Some (VList (chat_messages k)))
    as -> by by payload_lookup.
  exists (list_to_map [("role", VStr "user");
                       ("content", VStr (ChatCompletion.user_message k))]).
  unfold chat_messages, message. split_and!; [done|done|apply Hkeys| |].
  - intros s -> Hs. simpl.
    destruct (String.eqb_spec s "") as [->|_]; [by destruct Hs|].
    exists (list_to_map [("role", VStr "system"); ("content", VStr s)]).
    split_and!; [done|done|apply Hkeys|done].
  - intros Hsystem%truthy_str_spec. by rewrite Hsystem.
Qed.

Lemma chat_messages_shape_witness :
  ∃ system user : gmap string value,
    prompt_chat_payload
      (chat_call localhost llama (Some "You are a Python expert")
         "How do I use list comprehensions?" (-1) None) !! "messages"
    = Some (VList [VDict system; VDict user])
    ∧ system !! "role" = Some (VStr "system")
    ∧ system !! "content" = Some (VStr "You are a Python expert")
    ∧ user !! "role" = Some (VStr "user")
    ∧ user !! "content" = Some (VStr "How do I use list comprehensions?").
Proof.
  destruct (chat_messages_shape (chat_call localhost llama
              (Some "You are a Python expert") "How do I use list comprehensions?"
              (-1) None))
    as (user & Hrole & Hcontent & _ & Hsystem & _).
  destruct (Hsystem "You are a Python expert" eq_refl)
    as (system & Hsystem_role & Hsystem_content & _ & Hmessages); [discriminate|].
  by exists system, user.
Defined.

(** C1, as the code has it. [prompt_completion] leaves each of [top_k],
    [repetition_penalty], [stop], [best_of], [logprobs] and [min_tokens]
    out of the payload when the parameter is at its default, and leaves
    [use_beam_search] and [length_penalty] out when [use_beam_search] is
    [False]. [length_penalty] goes with the beam-search flag, not with
    its own value: with [use_beam_search=True] it is sent whatever it is. *)
Theorem defaults_omitted (k : Completion.kwargs) :
  (Completion.top_k k = -1 → prompt_completion_payload k !! "top_k" = None)
  ∧ ((Completion.repetition_penalty k =? 1)%float = true →
       prompt_completion_payload k !! "repetition_penalty" = None)
  ∧ (Completion.stop k = None ∨ Completion.stop k = Some [] →
       prompt_completion_payload k !! "stop" = None)
  ∧ (Completion.best_of k = None → prompt_completion_payload k !! "best_of" = None)
  ∧ (Completion.logprobs k = None → prompt_completion_payload k !! "logprobs" = None)
  ∧ (Completion.min_tokens k = 0 → prompt_completion_payload k !! "min_tokens" = None)
  ∧ (Completion.use_beam_search k = false →
       prompt_completion_payload k !! "use_beam_search" = None
       ∧ prompt_completion_payload k !! "length_penalty" = None)
  ∧ (Completion.use_beam_search k = true →
       prompt_completion_payload k !! "length_penalty"
       = Some (VFloat (Completion.length_penalty k))).
Proof.
  split_and!; try (intros Hbeam; split).
  - intros Hk. by rewrite completion_top_k, Hk.
  - intros Hk. payload_lookup. by rewrite Hk.
  - intros Hk%truthy_strs_spec. payload_lookup. by rewrite Hk.
  - intros Hk. by rewrite completion_best_of, Hk.
  - intros Hk. by rewrite completion_logprobs, Hk.
  - intros Hk. payload_lookup. by rewrite Hk.
  - payload_lookup. by rewrite Hbeam.
  - payload_lookup. by rewrite Hbeam.
  - intros Hk. payload_lookup. by rewrite Hk.
Qed.

Lemma defaults_omitted_witness :
  let payload := prompt_completion_payload (completion_defaults localhost llama "Hello") in
  payload !! "top_k" = None ∧ payload !! "repetition_penalty" = None
  ∧ payload !! "stop" = None ∧ payload !! "best_of" = None
  ∧ payload !! "logprobs" = None ∧ payload !! "min_tokens" = None
  ∧ payload !! "use_beam_search" = None ∧ payload !! "length_penalty" = None.
Proof.
  pose proof (defaults_omitted (completion_defaults localhost llama "Hello"))
    as (H1 & H2 & H3 & H4 & H5 & H6 & H7 & _).
  intros payload. split_and!.
  - by apply H1.
  - by apply H2.
  - apply H3. by left.
  - by apply H4.
  - by apply H5.
  - by apply H6.
  - by apply H7.
  - by apply H7.
Defined.

(** C1 as stated fails: with [use_beam_search=True], [length_penalty] at
    its default [1.0] is in the payload. *)
Lemma length_penalty_default_counterexample :
  ¬ ((Completion.length_penalty
        (with_sampling (-1) None None true (completion_defaults localhost llama "Hello"))
      =? 1)%float = true →
     prompt_completion_payload
       (with_sampling (-1) None None true (completion_defaults localhost llama "Hello"))
       !! "length_penalty" = None).
Proof. intros Hclaim. by specialize (Hclaim eq_refl). Qed.

(** ** Floats *)

Lemma float_pos_nonzero (t : float) : (0 <? t)%float = true → (t =? 0)%float = false.
Proof.
  rewrite FloatAxioms.ltb_spec, FloatAxioms.eqb_spec. unfold SFltb, SFeqb.
  change (Prim2SF 0) with (S754_zero false).
  by destruct (Prim2SF t) as [[]|[]| |[] ? ?].
Qed.

Lemma truediv_token_count (v : value) (t : float) :
  token_count v = true → (0 <? t)%float = true → ∃ x, truediv v t = inr x.
Proof.
  intros Hv Ht%float_pos_nonzero. unfold truediv. rewrite Ht.
  destruct v; try done; simpl in *; try by eexists.
  destruct (float_of_int z); [done|by eexists].
Qed.

Lemma gt_zero_token_count (v : value) :
  token_count v = true → gt_zero v = inr (positive v).
Proof. unfold positive. by destruct v. Qed.

Lemma usage_ok_numeric (response : gmap string value) :
  usage_ok response = true → numeric_usage response = true.
Proof.
  unfold usage_ok, numeric_usage.
  destruct (response !! "usage") as [[| | | | | |usage]|]; try done.
  destruct (usage !! "completion_tokens") as [[| |z| | | |]|]; try done.
  unfold token_count, float_of_int, float_takes.
  destruct (is_infinity _); [done|]. intros _. apply orb_true_r.
Qed.

Lemma gt_zero_number (v : value) :
  float_takes v = true → gt_zero v = inr (is_positive v).
Proof. by destruct v. Qed.

Lemma truediv_number (v : value) (t : float) :
  float_takes v = true → is_positive v = true → (0 <? t)%float = true →
  ∃ x, as_float v = Some x ∧ truediv v t = inr (x / t)%float.
Proof.
  intros Hv Hpositive Ht%float_pos_nonzero. unfold truediv. rewrite Ht.
  destruct v as [| |z| | | |]; try done; simpl in *; try by eexists.
  unfold float_of_int. apply Z.ltb_lt in Hpositive.
  rewrite (proj2 (Z.leb_gt z 0)) in Hv by done. simpl in Hv.
  apply negb_true_iff in Hv as ->. by eexists.
Qed.

Lemma throughput_positive (v : value) (t : float) :
  throughput v t = (if (0 <? t)%float && is_positive v
                    then (λ x, x / t)%float <$> as_float v else None).
Proof. done. Qed.

(** ** The renderer *)

Lemma print_choices_none content response show_metadata :
  response !! "choices" = None ∨ response !! "choices" = Some (VList []) →
  print_choices content response show_metadata
  = ([Print [Text "❌ No response generated"]], Ret ()).
Proof. unfold print_choices. by intros [-> | ->]. Qed.

Lemma print_metadata_returns response elapsed_time :
  usage_ok response = true → returns (print_metadata response elapsed_time).
Proof.
  unfold usage_ok, print_metadata, with_usage. intros Hok.
  destruct (response !! "usage") as [usage|]; [|by exists ()].
  destruct usage as [| | | | | |usage]; try done.
  repeat (apply returns_bind; [apply returns_print|intros _ _]).
  apply returns_bind.
  - apply returns_bind; [apply returns_lift|]. intros tokens [= <-]%result_lift.
    assert (token_count (default (VInt 0) (usage !! "completion_tokens")) = true)
      as Htokens by by destruct (usage !! "completion_tokens").
    rewrite gt_zero_token_count by done.
    apply returns_bind; [apply returns_lift|]. intros pos [= <-]%result_lift.
    apply returns_when. intros [_ Ht]%andb_prop.
    destruct (truediv_token_count _ _ Htokens Ht) as [x ->].
    apply returns_bind; [apply returns_lift|intros; apply returns_print].
  - intros _ _.
    repeat first
      [ apply returns_print
      | apply returns_bind; [first [apply returns_print | apply returns_lift]|intros ? _] ].
Qed.

Lemma print_metadata_returns_numeric response elapsed_time :
  numeric_usage response = true → returns (print_metadata response elapsed_time).
Proof.
  unfold numeric_usage, print_metadata, with_usage. intros Hok.
  destruct (response !! "usage") as [usage|]; [|by exists ()].
  destruct usage as [| | | | | |usage]; try done.
  repeat (apply returns_bind; [apply returns_print|intros _ _]).
  apply returns_bind.
  - apply returns_bind; [apply returns_lift|]. intros tokens [= <-]%result_lift.
    assert (float_takes (default (VInt 0) (usage !! "completion_tokens")) = true)
      as Htokens by by destruct (usage !! "completion_tokens").
    rewrite gt_zero_number by done.
    apply returns_bind; [apply returns_lift|]. intros pos [= <-]%result_lift.
    apply returns_when. intros [Hpositive Ht]%andb_prop.
    destruct (truediv_number _ _ Htokens Hpositive Ht) as (x & _ & ->).
    apply returns_bind; [apply returns_lift|intros; apply returns_print].
  - intros _ _.
    repeat first
      [ apply returns_print
      | apply returns_bind; [first [apply returns_print | apply returns_lift]|intros ? _] ].
Qed.

(** C6, as the code has it. For a response without [choices], or with
    an empty list of them, [print_response] prints the failure notice
    first, in chat and in completion mode alike, and then returns
    without raising when metadata is off, whatever else the response
    holds, and when metadata is on for a response whose [usage] is
    missing or an object whose [completion_tokens] is missing or a
    number. *)
Theorem no_choices_prints_notice (response : gmap string value) (mode : Mode)
    (elapsed_time : float) (show_metadata : bool) :
  response !! "choices" = None ∨ response !! "choices" = Some (VList []) →
  (∃ rest, trace (print_response response mode elapsed_time show_metadata)
           = Print [Text "❌ No response generated"] :: rest)
  ∧ ((show_metadata = true → numeric_usage response = true) →
     result (print_response response mode elapsed_time show_metadata) = Ret ()).
Proof.
  intros Hchoices. unfold print_response.
  rewrite !(print_choices_none _ _ _ Hchoices). split.
  - destruct mode;
      (edestruct (trace_bind_prefix (A:=unit) (B:=unit)) as [rest ->]; by exists rest).
  - intros Husage.
    assert (returns (when show_metadata (print_metadata response elapsed_time)))
      as [[] Hret].
    { apply returns_when. intros Hshow. by apply print_metadata_returns_numeric, Husage. }
    destruct mode; by rewrite (bind_Ret (_, _) _ ()).
Qed.

Lemma no_choices_prints_notice_witness :
  (∃ rest, trace (print_response zero_choices Chat 0.5 true)
           = Print [Text "❌ No response generated"] :: rest)
  ∧ result (print_response zero_choices Chat 0.5 true) = Ret ()
  ∧ result (print_response zero_choices_null_usage Completion 0.5 false) = Ret ().
Proof.
  destruct (no_choices_prints_notice zero_choices Chat 0.5 true) as [Hnotice Hreturns].
  - right. reflexivity.
  - split; [exact Hnotice|]. split.
    + apply Hreturns. intros _. reflexivity.
    + apply (no_choices_prints_notice zero_choices_null_usage Completion 0.5 false).
      * right. reflexivity.
      * intros [=].
Defined.

(** C6 as stated fails: with metadata shown, a response with an empty
    list of choices and a [usage] of [null] gets its notice printed,
    and then the usage report raises [AttributeError]. *)
Lemma no_choices_null_usage_counterexample :
  zero_choices_null_usage !! "choices" = Some (VList [])
  ∧ (∃ rest, trace (print_response zero_choices_null_usage Completion 0.5 true)
             = Print [Text "❌ No response generated"] :: rest)
  ∧ result (print_response zero_choices_null_usage Completion 0.5 true)
    = Raised AttributeError
  ∧ ¬ returns (print_response zero_choices_null_usage Completion 0.5 true).
Proof.
  split_and!; [reflexivity|by eexists|reflexivity|by intros [? ?]].
Qed.

(** ** The requests of the prompt tool *)

Lemma prompt_completion_posts net k :
  posts (trace (prompt_completion net k)) = [prompt_completion_payload k].
Proof.
  unfold prompt_completion, requests_post, try_except.
  by destruct (http_post net _ _) as [msg|[body|]].
Qed.

Lemma prompt_chat_posts net k :
  posts (trace (prompt_chat net k)) = [prompt_chat_payload k].
Proof.
  unfold prompt_chat, requests_post, try_except.
  by destruct (http_post net _ _) as [msg|[body|]].
Qed.

Lemma no_posts_parser_error (message : string) :
  posts (trace (parser_error message : prog unit)) = [].
Proof. done. Qed.

Lemma no_posts_display_configuration args :
  posts (trace (display_configuration args)) = [].
Proof. unfold display_configuration. no_posts. Qed.

Lemma no_posts_display_response round args response elapsed_time :
  posts (trace (display_response round args response elapsed_time)) = [].
Proof.
  unfold display_response, response_with_timing, tokens_per_second.
  destruct (Args.json args); [no_posts|].
  apply no_posts_bind; [apply no_posts_print_response|done].
Qed.

Lemma make_request_posts args stream net :
  posts (trace (make_request args stream net))
  = match Args.mode args with
    | Completion => [prompt_completion_payload (completion_kwargs args stream)]
    | Chat => [prompt_chat_payload (chat_kwargs args stream)]
    end.
Proof.
  unfold make_request.
  destruct (Args.mode args), (Args.json args), (truthy_str (Args.system args));
    simpl when.
  all: rewrite (posts_bind_Ret _ _ ()) by done.
  all: by rewrite ?prompt_completion_posts, ?prompt_chat_posts.
Qed.

(** Every payload [main] posts is the one of its mode, built with
    [stream=False]. *)
Lemma main_posts round args net payload :
  payload ∈ posts (trace (main round args net)) →
  payload = match Args.mode args with
            | Completion => prompt_completion_payload (completion_kwargs args false)
            | Chat => prompt_chat_payload (chat_kwargs args false)
            end.
Proof.
  unfold main. intros Hin.
  do 4 (apply elem_of_posts_bind_quiet in Hin as (_ & _ & Hin);
    [|apply no_posts_when;
      first [apply no_posts_parser_error | apply no_posts_display_configuration | done]]).
  cbv zeta in Hin.
  replace (if Args.stream args then false else Args.stream args) with false in Hin
    by by destruct (Args.stream args).
  apply elem_of_posts_bind in Hin as [Hin|([response elapsed_time] & _ & Hin)].
  - rewrite make_request_posts in Hin.
    destruct (Args.mode args); by apply list_elem_of_singleton in Hin.
  - simpl in Hin. rewrite no_posts_display_response in Hin.
    by apply elem_of_nil in Hin.
Qed.

(** ** Validation and streaming *)

(** C5. Completion mode without [--prompt] and chat mode without
    [--user-message] (or with an empty one) end in the usage error of
    [parser.error], exit status 2, and nothing else happens: no request
    is issued. *)
Theorem missing_required_argument (round : float → Z → float) (args : Args.t)
    (net : network) :
  (Args.mode args = Completion ∧ truthy_str (Args.prompt args) = false)
  ∨ (Args.mode args = Chat ∧ truthy_str (Args.user_message args) = false) →
  (∃ message, trace (main round args net) = [ParserError message])
  ∧ exit_code (main round args net) = 2
  ∧ requests (trace (main round args net)) = [].
Proof.
  intros [[Hmode Hmissing]|[Hmode Hmissing]].
  - assert (main round args net
            = ([ParserError "--prompt is required for completion mode"], Exited 2))
      as -> by (unfold main; by rewrite Hmode, Hmissing).
    split_and!; [by eexists|done..].
  - assert (main round args net
            = ([ParserError "--user-message is required for chat mode"], Exited 2))
      as -> by (unfold main; by rewrite Hmode, Hmissing).
    split_and!; [by eexists|done..].
Qed.

Lemma missing_required_argument_witness :
  exit_code (main round_stub
               (command_line Completion None None None None false false false) offline)
  = 2
  ∧ exit_code (main round_stub
                 (command_line Chat None (Some "You are a Python expert") None None
                    false false false) offline)
    = 2.
Proof.
  split.
  - apply missing_required_argument. left. split; reflexivity.
  - apply missing_required_argument. right. split; reflexivity.
Defined.

Lemma ret_bind {A B} (a : A) (k : A → prog B) : mret a ≫= k = k a.
Proof. rewrite (bind_Ret _ _ a) by done. by destruct (k a). Qed.

Lemma when_false_bind {B} (p : prog unit) (k : unit → prog B) :
  when false p ≫= k = k ().
Proof. apply ret_bind. Qed.

(** Past the validation, [main] is what follows it. *)
Lemma main_validated round args net :
  has_required_argument args = true →
  main round args net
  = (when (Args.stream args)
       (print [Text "⚠️  Warning: Streaming is not implemented in this script"]) ;;
     when (negb (Args.json args)) (display_configuration args) ;;
     '(response, elapsed_time) ← make_request args false net;
     display_response round args response elapsed_time).
Proof.
  unfold has_required_argument, main. intros Hreq.
  replace (if Args.stream args then false else Args.stream args) with false
    by by destruct (Args.stream args).
  destruct (Args.mode args); rewrite Hreq; simpl andb; by rewrite !when_false_bind.
Qed.

(** C8. Whatever the command line, each payload [main] posts has
    [stream] set to [False]; with [--stream] given, the first thing a
    run that passes the validation does is to print the warning. *)
Theorem stream_never_requested (round : float → Z → float) (args : Args.t)
    (net : network) :
  (∀ payload, payload ∈ posts (trace (main round args net)) →
     payload !! "stream" = Some (VBool false))
  ∧ (Args.stream args = true → has_required_argument args = true →
     ∃ rest, trace (main round args net)
             = Print [Text "⚠️  Warning: Streaming is not implemented in this script"]
               :: rest).
Proof.
  split.
  - intros payload ->%main_posts.
    destruct (Args.mode args); [apply completion_stream|apply chat_stream].
  - intros Hstream Hreq. rewrite main_validated, Hstream by done.
    edestruct (trace_bind_prefix (A:=unit) (B:=unit)) as [rest ->]. by exists rest.
Qed.

Lemma stream_never_requested_witness :
  ∃ rest,
    trace (main round_stub
             (command_line Completion (Some "The capital of France is") None None None
                true false false)
             (mock paris 0.5))
    = Print [Text "⚠️  Warning: Streaming is not implemented in this script"] :: rest.
Proof.
  apply (stream_never_requested round_stub
           (command_line Completion (Some "The capital of France is") None None None
              true false false)
           (mock paris 0.5)); reflexivity.
Defined.

(** ** Raw JSON output *)

Lemma get_completion_tokens response :
  usage_ok response = true →
  get (default (VDict ∅) (response !! "usage")) "completion_tokens" (VInt 0)
  = inr (completion_tokens response)
  ∧ token_count (completion_tokens response) = true.
Proof.
  unfold usage_ok, completion_tokens.
  destruct (response !! "usage") as [[| | | | | |usage]|]; try done.
  simpl. by destruct (usage !! "completion_tokens").
Qed.

Lemma tokens_per_second_spec round response elapsed_time :
  ((0 <? elapsed_time)%float = true → usage_ok response = true) →
  ∃ v, tokens_per_second round response elapsed_time = ([], Ret v)
    ∧ ((0 <? elapsed_time)%float = true →
       positive (completion_tokens response) = true →
       ∃ ratio, truediv (completion_tokens response) elapsed_time = inr ratio
                ∧ v = VFloat (round ratio 2))
    ∧ ((0 <? elapsed_time)%float = false
       ∨ positive (completion_tokens response) = false → v = VNone).
Proof.
  intros Husage. unfold tokens_per_second.
  destruct (0 <? elapsed_time)%float eqn:Helapsed.
  - destruct (get_completion_tokens response) as [-> Htokens]; [by apply Husage|].
    simpl lift. rewrite ret_bind, (gt_zero_token_count _ Htokens).
    simpl lift. rewrite ret_bind.
    destruct (positive (completion_tokens response)) eqn:Hpositive.
    + destruct (truediv_token_count _ _ Htokens Helapsed) as [ratio Hratio].
      rewrite ret_bind, Hratio. simpl lift. rewrite ret_bind.
      eexists. split; [done|]. split; [by eauto|]. by intros [|].
    + eexists. split; [done|]. split; [done|]. by intros _.
  - eexists. split; [done|]. split; [done|]. by intros _.
Qed.

Lemma make_request_json args net response elapsed_time :
  Args.json args = true →
  (∀ url payload, http_post net url payload = Body (Some response)) →
  (∀ url payload, elapsed net url payload = elapsed_time) →
  ∃ url payload,
    make_request args false net = ([Post url payload 60], Ret (response, elapsed_time)).
Proof.
  intros Hjson Hpost Helapsed. unfold make_request. rewrite Hjson. simpl negb.
  destruct (Args.mode args); rewrite when_false_bind;
    unfold prompt_completion, prompt_chat, requests_post, try_except;
    rewrite Hpost, Helapsed; by do 2 eexists.
Qed.

Lemma numeric_completion_tokens response :
  numeric_usage response = true →
  get (default (VDict ∅) (response !! "usage")) "completion_tokens" (VInt 0)
  = inr (completion_tokens response)
  ∧ float_takes (completion_tokens response) = true.
Proof.
  unfold numeric_usage, completion_tokens.
  destruct (response !! "usage") as [[| | | | | |usage]|]; try done.
  simpl. by destruct (usage !! "completion_tokens").
Qed.

Lemma tokens_per_second_numeric round response elapsed_time :
  ((0 <? elapsed_time)%float = true → numeric_usage response = true) →
  tokens_per_second round response elapsed_time
  = ([], Ret (expected_tokens_per_second round response elapsed_time)).
Proof.
  intros Husage. unfold tokens_per_second, expected_tokens_per_second.
  rewrite throughput_positive.
  destruct (0 <? elapsed_time)%float eqn:Helapsed; [|done].
  destruct (numeric_completion_tokens response) as [-> Htokens]; [by apply Husage|].
  simpl lift. rewrite ret_bind, (gt_zero_number _ Htokens).
  simpl lift. rewrite ret_bind. simpl andb.
  destruct (is_positive (completion_tokens response)) eqn:Hpositive; [|done].
  destruct (truediv_number _ _ Htokens Hpositive Helapsed) as (x & -> & Hratio).
  by rewrite ret_bind, Hratio.
Qed.

(** C4, as the code has it. With [--json], for a response whose [usage]
    is missing or an object whose [completion_tokens] is missing or a
    number, what [main] prints last is the response with a [_timing]
    object added to it, and that object holds a [tokens_per_second]:
    [round(completion_tokens / elapsed_time, 2)] exactly when the
    elapsed time and [usage.completion_tokens] are both greater than
    0, and [None] in every other case: no time elapsed (then whatever
    the response holds), no [usage], no count, a count of 0 or less. *)
Theorem json_tokens_per_second (round : float → Z → float) (args : Args.t)
    (net : network) (response : gmap string value) (elapsed_time : float) :
  Args.json args = true →
  has_required_argument args = true →
  (∀ url payload, http_post net url payload = Body (Some response)) →
  (∀ url payload, elapsed net url payload = elapsed_time) →
  ((0 <? elapsed_time)%float = true → numeric_usage response = true) →
  ∃ before v,
    trace (main round args net)
    = before ++ [Print [JsonDumps (VDict (<["_timing" := VDict (list_to_map [
                   ("request_latency_seconds", VFloat (round elapsed_time 3));
                   ("tokens_per_second", v)])]> response))]]
    ∧ result (main round args net) = Ret ()
    ∧ ((0 <? elapsed_time)%float = false → v = VNone)
    ∧ (response !! "usage" = None → v = VNone)
    ∧ (∀ usage, response !! "usage" = Some (VDict usage) →
         match usage !! "completion_tokens" with
         | None => v = VNone
         | Some (VInt z) =>
             v = if (0 <? elapsed_time)%float && (0 <? z)
                 then VFloat (round (SF2Prim (binary_normalize prec emax z 0 false)
                                     / elapsed_time)%float 2)
                 else VNone
         | Some (VFloat f) =>
             v = if (0 <? elapsed_time)%float && (0 <? f)%float
                 then VFloat (round (f / elapsed_time)%float 2)
                 else VNone
         | Some (VBool b) =>
             v = if (0 <? elapsed_time)%float && b
                 then VFloat (round (1 / elapsed_time)%float 2)
                 else VNone
         | Some _ => (0 <? elapsed_time)%float = false
         end).
Proof.
  intros Hjson Hreq Hpost Helapsed Husage.
  pose proof (tokens_per_second_numeric round response elapsed_time Husage) as Htps.
  destruct (make_request_json args net response elapsed_time Hjson Hpost Helapsed)
    as (url & payload & Hrequest).
  assert (display_response round args response elapsed_time
          = ([Print [JsonDumps (VDict (<["_timing" := VDict (list_to_map [
                ("request_latency_seconds", VFloat (round elapsed_time 3));
                ("tokens_per_second",
                 expected_tokens_per_second round response elapsed_time)])]>
                response))]], Ret ())) as Hdisplay.
  { unfold display_response, response_with_timing. by rewrite Hjson, Htps. }
  rewrite main_validated, Hjson, Hrequest by done. simpl negb.
  rewrite when_false_bind, (bind_Ret (_, _) _ (response, elapsed_time)) by done.
  simpl trace. rewrite Hdisplay.
  exists (trace (when (Args.stream args)
                   (print [Text "⚠️  Warning: Streaming is not implemented in this script"]))
          ++ [Post url payload 60]),
    (expected_tokens_per_second round response elapsed_time).
  split_and!.
  - destruct (Args.stream args); reflexivity.
  - by destruct (Args.stream args).
  - intros Hzero. unfold expected_tokens_per_second.
    by rewrite throughput_positive, Hzero.
  - intros Hmissing. unfold expected_tokens_per_second, completion_tokens.
    rewrite throughput_positive, Hmissing. simpl. by rewrite andb_false_r.
  - intros usage Hpresent. unfold expected_tokens_per_second, completion_tokens.
    rewrite throughput_positive, Hpresent.
    destruct (0 <? elapsed_time)%float eqn:Hpositive.
    + specialize (Husage eq_refl). unfold numeric_usage in Husage.
      rewrite Hpresent in Husage.
      destruct (usage !! "completion_tokens") as [[| |z| | | |]|]; simpl; try done.
      * by destruct b.
      * by destruct (0 <? z).
      * by destruct (0 <? f)%float.
    + by destruct (usage !! "completion_tokens") as [[| | | | | |]|].
Qed.

Lemma json_tokens_per_second_witness :
  (∃ before,
     trace (main round_stub json_command_line (mock paris 0.5))
     = before ++ [Print [JsonDumps (VDict (<["_timing" := VDict (list_to_map [
                    ("request_latency_seconds", VFloat 0.5);
                    ("tokens_per_second", VFloat 6)])]> paris))]])
  ∧ (∃ before,
       trace (main round_stub json_command_line (mock zero_choices 0.5))
       = before ++ [Print [JsonDumps (VDict (<["_timing" := VDict (list_to_map [
                      ("request_latency_seconds", VFloat 0.5);
                      ("tokens_per_second", VNone)])]> zero_choices))]]).
Proof.
  split.
  - destruct (json_tokens_per_second round_stub json_command_line (mock paris 0.5)
                paris 0.5)
      as (before & v & Htrace & _ & _ & _ & Hcount);
      [reflexivity|reflexivity|intros; reflexivity|intros; reflexivity|
       intros; reflexivity|].
    specialize (Hcount _ eq_refl). vm_compute in Hcount. subst v.
    exists before. exact Htrace.
  - destruct (json_tokens_per_second round_stub json_command_line
                (mock zero_choices 0.5) zero_choices 0.5)
      as (before & v & Htrace & _ & _ & _ & Hcount);
      [reflexivity|reflexivity|intros; reflexivity|intros; reflexivity|
       intros; reflexivity|].
    specialize (Hcount _ eq_refl). vm_compute in Hcount. subst v.
    exists before. exact Htrace.
Defined.

(** C4 as stated fails: with [--json], a response whose [usage] is
    [null], received after half a second, makes the timing object
    raise [AttributeError]; nothing is printed, so no [_timing] and no
    [tokens_per_second]. *)
Lemma json_null_usage_counterexample :
  result (main round_stub json_command_line (mock null_usage 0.5))
  = Raised AttributeError
  ∧ printed (trace (main round_stub json_command_line (mock null_usage 0.5))) = []
  ∧ ¬ (∃ before with_timing,
         trace (main round_stub json_command_line (mock null_usage 0.5))
         = before ++ [Print [JsonDumps (VDict with_timing)]]).
Proof.
  split_and!; [reflexivity|reflexivity|].
  intros (before & with_timing & Htrace).
  apply (f_equal printed) in Htrace. unfold printed at 2 in Htrace.
  rewrite omap_app in Htrace.
  change (printed (trace (main round_stub json_command_line (mock null_usage 0.5))))
    with (@nil (list piece)) in Htrace.
  by destruct (omap _ before).
Qed.

(** ** [best_of] and [logprobs] in chat mode *)

(** C2, as the code has it. [best_of] goes into completion payloads
    only: no payload of [prompt_chat] has the key, and none that [main]
    posts in chat mode, whatever [--best-of] is. [logprobs] is not
    limited to completion mode: [prompt_chat] includes it whenever the
    value is set and not 0. *)
Theorem chat_best_of_and_logprobs (k : ChatCompletion.kwargs)
    (round : float → Z → float) (args : Args.t) (net : network) :
  prompt_chat_payload k !! "best_of" = None
  ∧ prompt_chat_payload k !! "logprobs"
    = (if truthy_int (ChatCompletion.logprobs k)
       then Some (optional (ChatCompletion.logprobs k)) else None)
  ∧ (Args.mode args = Chat →
     ∀ payload, payload ∈ posts (trace (main round args net)) →
       payload !! "best_of" = None
       ∧ payload !! "logprobs"
         = (if truthy_int (Args.logprobs args)
            then Some (optional (Args.logprobs args)) else None)).
Proof.
  split_and!; [apply chat_best_of|apply chat_logprobs|].
  intros Hmode payload ->%main_posts. rewrite Hmode.
  split; [apply chat_best_of|apply chat_logprobs].
Qed.

Lemma chat_best_of_and_logprobs_witness :
  Forall (λ payload : gmap string value, payload !! "best_of" = None)
    (posts (trace (main round_stub
                     (command_line Chat None None (Some "Hello") (Some 3)
                        false false false)
                     (mock paris 0.5)))).
Proof.
  apply Forall_forall. intros payload Hposted.
  by apply (chat_best_of_and_logprobs (chat_call localhost llama None "Hello" (-1) None)
              round_stub
              (command_line Chat None None (Some "Hello") (Some 3) false false false)
              (mock paris 0.5)).
Defined.

(** C2 as stated fails: a chat payload built with [logprobs=5] has the
    key [logprobs]. *)
Lemma chat_logprobs_counterexample :
  ¬ (prompt_chat_payload (chat_call localhost llama None "Hello" (-1) (Some 5))
       !! "best_of" = None
     ∧ prompt_chat_payload (chat_call localhost llama None "Hello" (-1) (Some 5))
       !! "logprobs" = None).
Proof. by intros [_ Hlogprobs]. Qed.

(** ** The test harness *)

Lemma count_passed_cons (name : string) (success : bool) results :
  TestLlmApi.count_passed ((name, success) :: results)
  = (if success then 1 else 0) + TestLlmApi.count_passed results.
Proof. by destruct success. Qed.

Lemma count_passed_le results :
  TestLlmApi.count_passed results ≤ Z.of_nat (length results).
Proof.
  induction results as [|[name success] results IH]; [done|].
  rewrite count_passed_cons. simpl length. destruct success; lia.
Qed.

Lemma count_passed_all results :
  TestLlmApi.count_passed results = Z.of_nat (length results)
  ↔ forallb snd results = true.
Proof.
  induction results as [|[name success] results IH]; [done|].
  rewrite count_passed_cons. simpl length. simpl forallb.
  pose proof (count_passed_le results).
  destruct success; simpl; [rewrite <- IH|]; split; (lia || done).
Qed.

(** The exit status of the harness: 0 iff every recorded probe passed. *)
Lemma summary_exit_code results :
  exit_code (TestLlmApi.summary results) = if forallb snd results then 0 else 1.
Proof.
  assert (∃ tr, TestLlmApi.summary results
                = (tr, Exited (if TestLlmApi.count_passed results
                                  =? Z.of_nat (length results) then 0 else 1)))
    as [tr ->].
  { unfold TestLlmApi.summary.
    assert (returns (for_each results (λ r,
              print [Text ((if r.2 then "✅ PASS" else "❌ FAIL") +:+ " - " +:+ r.1)])))
      as [[] Hloop].
    { induction results as [|r results IH]; [by exists ()|].
      simpl. apply returns_bind; [apply returns_print|done]. }
    do 3 rewrite (bind_Ret (print _) _ ()) by done.
    rewrite (bind_Ret _ _ () Hloop).
    do 2 rewrite (bind_Ret (print _) _ ()) by done.
    by eexists. }
  unfold exit_code. simpl.
  destruct (forallb snd results) eqn:Hall.
  - apply count_passed_all in Hall as ->. by rewrite Z.eqb_refl.
  - destruct (Z.eqb_spec (TestLlmApi.count_passed results) (Z.of_nat (length results)))
      as [Heq%count_passed_all|]; [congruence|done].
Qed.


(** [main] runs its probes in order, then the summary over their
    results. *)
Lemma test_main_summary args net health models chat text :
  (TestLlmApi.skip_health args = false →
   result (TestLlmApi.test_health net (TestLlmApi.url args)) = Ret health) →
  result (TestLlmApi.test_list_models net (TestLlmApi.url args)) = Ret models →
  result (TestLlmApi.test_chat_completion net (TestLlmApi.url args)
            (TestLlmApi.model args)) = Ret chat →
  result (TestLlmApi.test_text_completion net (TestLlmApi.url args)
            (TestLlmApi.model args)) = Ret text →
  let results :=
    (if TestLlmApi.skip_health args then [] else [("Health", health)])
    ++ [("List Models", models); ("Chat Completion", chat); ("Text Completion", text)] in
  ∃ before,
    TestLlmApi.main args net
    = (before ++ trace (TestLlmApi.summary results),
       result (TestLlmApi.summary results)).
Proof.
  intros Hhealth Hmodels Hchat Htext results. unfold TestLlmApi.main.
  rewrite (bind_Ret (print _) _ ()) by done.
  assert (∃ tr, (if negb (TestLlmApi.skip_health args)
                 then ok ← TestLlmApi.test_health net (TestLlmApi.url args);
                      mret ([] ++ [("Health", ok)])
                 else mret [])
                = (tr, Ret (if TestLlmApi.skip_health args then []
                            else [("Health", health)]))) as [tr ->].
  { destruct (TestLlmApi.skip_health args); simpl negb; [by eexists|].
    rewrite (bind_Ret _ _ health) by auto. by eexists. }
  rewrite (bind_Ret (_, _) _ _) by done.
  rewrite (bind_Ret _ _ models Hmodels), (bind_Ret _ _ chat Hchat),
    (bind_Ret _ _ text Htext).
  cbn [trace result fst snd].
  replace ((((if TestLlmApi.skip_health args then [] else [("Health", health)])
               ++ [("List Models", models)]) ++ [("Chat Completion", chat)])
             ++ [("Text Completion", text)])
    with results by (subst results; by rewrite <- !app_assoc).
  rewrite !app_assoc. by eexists.
Qed.




(** ** The keys of a payload *)

Lemma lookup_set_if (cond : bool) (key key' : string) (v : value)
    (payload : gmap string value) :
  is_Some (set_if cond key v payload !! key') → key' = key ∨ is_Some (payload !! key').
Proof.
  destruct (decide (key = key')) as [->|Hne]; [by left|].
  rewrite lookup_set_if_ne by done. by right.
Qed.

(** X1. Whatever its parameters, [prompt_completion] sends the ten
    keys of its dict display with the values it was given: none of the
    conditional assignments that follow replaces one of them. *)
Theorem completion_payload_base (k : Completion.kwargs) :
  prompt_completion_payload k !! "model" = Some (VStr (Completion.model_name k))
  ∧ prompt_completion_payload k !! "prompt" = Some (VStr (Completion.prompt k))
  ∧ prompt_completion_payload k !! "max_tokens" = Some (VInt (Completion.max_tokens k))
  ∧ prompt_completion_payload k !! "temperature"
    = Some (VFloat (Completion.temperature k))
  ∧ prompt_completion_payload k !! "top_p" = Some (VFloat (Completion.top_p k))
  ∧ prompt_completion_payload k !! "frequency_penalty"
    = Some (VFloat (Completion.frequency_penalty k))
  ∧ prompt_completion_payload k !! "presence_penalty"
    = Some (VFloat (Completion.presence_penalty k))
  ∧ prompt_completion_payload k !! "stream" = Some (VBool (Completion.stream k))
  ∧ prompt_completion_payload k !! "n" = Some (VInt (Completion.n k))
  ∧ prompt_completion_payload k !! "echo" = Some (VBool (Completion.echo k)).
Proof. split_and!; by payload_lookup. Qed.

(** X2. The optional keys of a completion payload that the claims leave
    open: [repetition_penalty] is sent exactly when it differs from 1.0
    as a float (so NaN is sent), [stop] exactly for a non-empty list,
    [min_tokens] exactly when positive, and [use_beam_search] and
    [length_penalty] exactly when beam search is on; a key that is sent
    carries the parameter. *)
Theorem completion_payload_optional (k : Completion.kwargs) :
  prompt_completion_payload k !! "repetition_penalty"
  = (if (Completion.repetition_penalty k =? 1)%float then None
     else Some (VFloat (Completion.repetition_penalty k)))
  ∧ prompt_completion_payload k !! "stop"
    = match Completion.stop k with
      | Some (s :: l) => Some (str_list (s :: l))
      | _ => None
      end
  ∧ prompt_completion_payload k !! "min_tokens"
    = (if 0 <? Completion.min_tokens k
       then Some (VInt (Completion.min_tokens k)) else None)
  ∧ prompt_completion_payload k !! "use_beam_search"
    = (if Completion.use_beam_search k then Some (VBool true) else None)
  ∧ prompt_completion_payload k !! "length_penalty"
    = (if Completion.use_beam_search k
       then Some (VFloat (Completion.length_penalty k)) else None).
Proof.
  split_and!; payload_lookup.
  - by destruct (_ =? _)%float.
  - by destruct (Completion.stop k) as [[|s l]|].
  - done.
  - by destruct (Completion.use_beam_search k).
  - done.
Qed.

(** X3. A completion payload has no key but the ten of the dict display
    and the eight optional ones. *)
Theorem completion_payload_keys (k : Completion.kwargs) (key : string) :
  is_Some (prompt_completion_payload k !! key) →
  key ∈ ["model"; "prompt"; "max_tokens"; "temperature"; "top_p";
         "frequency_penalty"; "presence_penalty"; "stream"; "n"; "echo";
         "top_k"; "repetition_penalty"; "stop"; "best_of"; "logprobs";
         "min_tokens"; "use_beam_search"; "length_penalty"].
Proof.
  unfold prompt_completion_payload. cbv zeta. intros Hkey.
  repeat (apply lookup_set_if in Hkey as [->|Hkey]; [by repeat constructor|]).
  apply lookup_display in Hkey. simpl in Hkey.
  repeat (apply elem_of_cons in Hkey as [->|Hkey]; [by repeat constructor|]).
  by apply elem_of_nil in Hkey.
Qed.

Lemma completion_payload_keys_witness :
  "top_k" ∈ ["model"; "prompt"; "max_tokens"; "temperature"; "top_p";
             "frequency_penalty"; "presence_penalty"; "stream"; "n"; "echo";
             "top_k"; "repetition_penalty"; "stop"; "best_of"; "logprobs";
             "min_tokens"; "use_beam_search"; "length_penalty"].
Proof.
  apply (completion_payload_keys
           (with_sampling 40 None None false (completion_defaults localhost llama "Hello"))).
  by eexists.
Defined.

(** X4. A chat payload has the nine keys of its dict display with the
    values given, [repetition_penalty] and [stop] under the conditions
    of the completion payload, and no key outside its thirteen: in
    particular never [prompt], [echo], [min_tokens], [use_beam_search],
    [length_penalty] or [best_of]. *)
Theorem chat_payload_keys (k : ChatCompletion.kwargs) :
  (prompt_chat_payload k !! "model" = Some (VStr (ChatCompletion.model_name k))
   ∧ prompt_chat_payload k !! "max_tokens" = Some (VInt (ChatCompletion.max_tokens k))
   ∧ prompt_chat_payload k !! "temperature"
     = Some (VFloat (ChatCompletion.temperature k))
   ∧ prompt_chat_payload k !! "top_p" = Some (VFloat (ChatCompletion.top_p k))
   ∧ prompt_chat_payload k !! "frequency_penalty"
     = Some (VFloat (ChatCompletion.frequency_penalty k))
   ∧ prompt_chat_payload k !! "presence_penalty"
     = Some (VFloat (ChatCompletion.presence_penalty k))
   ∧ prompt_chat_payload k !! "stream" = Some (VBool (ChatCompletion.stream k))
   ∧ prompt_chat_payload k !! "n" = Some (VInt (ChatCompletion.n k)))
  ∧ prompt_chat_payload k !! "repetition_penalty"
    = (if (ChatCompletion.repetition_penalty k =? 1)%float then None
       else Some (VFloat (ChatCompletion.repetition_penalty k)))
  ∧ prompt_chat_payload k !! "stop"
    = match ChatCompletion.stop k with
      | Some (s :: l) => Some (str_list (s :: l))
      | _ => None
      end
  ∧ (∀ key, is_Some (prompt_chat_payload k !! key) →
       key ∈ ["model"; "messages"; "max_tokens"; "temperature"; "top_p";
              "frequency_penalty"; "presence_penalty"; "stream"; "n";
              "top_k"; "repetition_penalty"; "stop"; "logprobs"]).
Proof.
  split_and!; try by payload_lookup.
  - payload_lookup. by destruct (_ =? _)%float.
  - payload_lookup. by destruct (ChatCompletion.stop k) as [[|s l]|].
  - unfold prompt_chat_payload. cbv zeta. intros key Hkey.
    repeat (apply lookup_set_if in Hkey as [->|Hkey]; [by repeat constructor|]).
    apply lookup_display in Hkey. simpl in Hkey.
    repeat (apply elem_of_cons in Hkey as [->|Hkey]; [by repeat constructor|]).
    by apply elem_of_nil in Hkey.
Qed.

(** ** What a run shows, step by step *)

Section Observations.
Context {X : Type} (f : event → option X).

Lemma omap_trace_bind {A B} (p : prog A) (k : A → prog B) :
  omap f (trace (p ≫= k))
  = omap f (trace p)
    ++ match result p with Ret a => omap f (trace (k a)) | _ => [] end.
Proof.
  destruct (result p) as [a|e|c] eqn:Hp.
  - rewrite (bind_Ret _ _ a Hp). apply omap_app.
  - rewrite (bind_Raised _ _ e Hp). by rewrite app_nil_r.
  - rewrite (bind_Exited _ _ c Hp). by rewrite app_nil_r.
Qed.

End Observations.

Lemma only_prints_omap {X} (f : event → option X) (tr : list event) :
  (∀ line, f (Print line) = None) → only_prints tr → omap f tr = [].
Proof.
  intros Hf. induction 1 as [|[line| | |] tr He _ IH]; try done.
  simpl. by rewrite Hf.
Qed.

Lemma only_prints_calls (tr : list event) : only_prints tr → calls tr = [].
Proof. by apply only_prints_omap. Qed.

Lemma only_prints_bind {A B} (p : prog A) (k : A → prog B) :
  only_prints (trace p) → (∀ a, only_prints (trace (k a))) →
  only_prints (trace (p ≫= k)).
Proof.
  intros Hp Hk. destruct (result p) as [a|e|c] eqn:Hres.
  - rewrite (bind_Ret _ _ a Hres). apply Forall_app. split; [done|apply Hk].
  - by rewrite (bind_Raised _ _ e Hres).
  - by rewrite (bind_Exited _ _ c Hres).
Qed.

Lemma only_prints_print (line : list piece) : only_prints (trace (print line)).
Proof. by repeat constructor. Qed.

Lemma only_prints_ret {A} (a : A) : only_prints (trace (mret a : prog A)).
Proof. constructor. Qed.

Lemma only_prints_when (b : bool) (p : prog unit) :
  only_prints (trace p) → only_prints (trace (when b p)).
Proof. destruct b; [done|constructor]. Qed.

Lemma only_prints_lift {A} (r : res A) : only_prints (trace (lift r)).
Proof. destruct r; constructor. Qed.

Lemma only_prints_for_each {A} (l : list A) (body : A → prog unit) :
  (∀ x, only_prints (trace (body x))) → only_prints (trace (for_each l body)).
Proof.
  intros Hbody. induction l as [|x l IH]; [constructor|].
  simpl. by apply only_prints_bind.
Qed.

(** Discharges [only_prints (trace p)] for a run built from prints,
    dynamic operations, conditionals and loops. *)
Ltac only_prints :=
  repeat first
    [ apply only_prints_print
    | apply only_prints_ret
    | apply only_prints_lift
    | apply only_prints_bind; [|intros ?]
    | apply only_prints_when
    | apply only_prints_for_each; intros ?
    | match goal with
      | |- context [match ?x with _ => _ end] => destruct x
      end ].

Lemma only_prints_print_response response mode elapsed_time show_metadata :
  only_prints (trace (print_response response mode elapsed_time show_metadata)).
Proof.
  unfold print_response, print_choices, print_choice, print_metadata, with_usage.
  only_prints.
Qed.

Lemma only_prints_display_configuration args :
  only_prints (trace (display_configuration args)).
Proof. unfold display_configuration. only_prints. Qed.

Lemma only_prints_display_response round args response elapsed_time :
  only_prints (trace (display_response round args response elapsed_time)).
Proof.
  unfold display_response, response_with_timing, tokens_per_second.
  destruct (Args.json args); [only_prints|].
  apply only_prints_bind; [apply only_prints_print_response|intros; only_prints].
Qed.

(** ** One request, no retry *)

(** X5. [prompt_completion] posts once, to [/v1/completions] with a
    timeout of 60, and never raises: when the request fails or the body
    is not JSON it prints the error and exits with status 1, without a
    second attempt; otherwise it returns the body and the elapsed time. *)
Theorem prompt_completion_outcome (net : network) (k : Completion.kwargs) :
  let url := Completion.base_url k +:+ "/v1/completions" in
  let payload := prompt_completion_payload k in
  prompt_completion net k
  = match http_post net url payload with
    | Failed msg =>
        ([Post url payload 60; Print [Text "❌ Error: "; Exn (RequestException msg)]],
         Exited 1)
    | Body None =>
        ([Post url payload 60; Print [Text "❌ Error: "; Exn JSONDecodeError]], Exited 1)
    | Body (Some body) => ([Post url payload 60], Ret (body, elapsed net url payload))
    end.
Proof.
  intros url payload. unfold prompt_completion, requests_post, try_except.
  fold url payload. by destruct (http_post net url payload) as [msg|[body|]].
Qed.

(** X6. [prompt_chat] does the same against [/v1/chat/completions]. *)
Theorem prompt_chat_outcome (net : network) (k : ChatCompletion.kwargs) :
  let url := ChatCompletion.base_url k +:+ "/v1/chat/completions" in
  let payload := prompt_chat_payload k in
  prompt_chat net k
  = match http_post net url payload with
    | Failed msg =>
        ([Post url payload 60; Print [Text "❌ Error: "; Exn (RequestException msg)]],
         Exited 1)
    | Body None =>
        ([Post url payload 60; Print [Text "❌ Error: "; Exn JSONDecodeError]], Exited 1)
    | Body (Some body) => ([Post url payload 60], Ret (body, elapsed net url payload))
    end.
Proof.
  intros url payload. unfold prompt_chat, requests_post, try_except.
  fold url payload. by destruct (http_post net url payload) as [msg|[body|]].
Qed.

Lemma make_request_calls args stream net :
  calls (trace (make_request args stream net)) = [(endpoint args, 60)].
Proof.
  unfold make_request, endpoint, calls.
  destruct (Args.mode args); rewrite omap_trace_bind.
  - rewrite (only_prints_omap _ (trace (when _ _)))
      by (done || apply only_prints_when; only_prints).
    assert (∃ u, result (when (negb (Args.json args))
                (print [Text "Prompt: "; Str (optional_str (Args.prompt args));
                        Text newline] ;;
                 print [Text (str_mul "─" 60)] ;; print [Text "Response:"])) = Ret u)
      as [u ->] by (destruct (Args.json args); by eexists).
    unfold prompt_completion, requests_post, try_except.
    by destruct (http_post net _ _) as [msg|[body|]].
  - rewrite (only_prints_omap _ (trace (when _ _)))
      by (done || apply only_prints_when; only_prints).
    assert (∃ u, result (when (negb (Args.json args))
                (when (truthy_str (Args.system args))
                   (print [Text "System: "; Str (optional_str (Args.system args))]) ;;
                 print [Text "User: "; Str (optional_str (Args.user_message args));
                        Text newline] ;;
                 print [Text (str_mul "─" 60)] ;; print [Text "Assistant:"])) = Ret u)
      as [u ->]
      by (destruct (Args.json args), (truthy_str (Args.system args)); by eexists).
    unfold prompt_chat, requests_post, try_except.
    by destruct (http_post net _ _) as [msg|[body|]].
Qed.

(** X7. [main] issues one request when the command line passes the
    validation and none otherwise: a POST to the endpoint of the mode
    with a timeout of 60, whether it succeeds or not. *)
Theorem main_calls (round : float → Z → float) (args : Args.t) (net : network) :
  calls (trace (main round args net))
  = if has_required_argument args then [(endpoint args, 60)] else [].
Proof.
  destruct (has_required_argument args) eqn:Hreq.
  - rewrite main_validated by done. unfold calls.
    rewrite omap_trace_bind.
    rewrite (only_prints_omap _ (trace (when _ _)))
      by (done || apply only_prints_when; only_prints).
    assert (result (when (Args.stream args)
              (print [Text "⚠️  Warning: Streaming is not implemented in this script"]))
            = Ret ()) as -> by by destruct (Args.stream args).
    rewrite omap_trace_bind.
    rewrite (only_prints_omap _ (trace (when _ _)))
      by (done || apply only_prints_when, only_prints_display_configuration).
    assert (∃ u, result (when (negb (Args.json args)) (display_configuration args))
                 = Ret u) as [u ->].
    { destruct (Args.json args); [by eexists|]. unfold display_configuration.
      simpl when.
      repeat (apply returns_bind;
              [first [apply returns_print | apply returns_when; intros _; apply returns_print]
              |intros ? _]).
      apply returns_print. }
    rewrite omap_trace_bind. fold (calls (trace (make_request args false net))).
    rewrite make_request_calls. simpl.
    destruct (result (make_request args false net)) as [[response t]| |]; [|done..].
    by rewrite (only_prints_omap _ _ (λ _, eq_refl)
                  (only_prints_display_response round args response t)).
  - unfold has_required_argument in Hreq. unfold main.
    destruct (Args.mode args) eqn:Hmode; rewrite Hreq; [done|].
    simpl andb. by rewrite when_false_bind.
Qed.

(** ** The renderer on a well-formed response *)

Lemma returns_for_each {A} (l : list A) (body : A → prog unit) :
  Forall (λ x, returns (body x)) l → returns (for_each l body).
Proof.
  induction 1 as [|x l Hx _ IH]; [by exists ()|].
  simpl. by apply returns_bind.
Qed.

Lemma content_dict mode choice text : content mode choice = inr text → is_dict choice = true.
Proof. destruct mode, choice; simpl; try done; by destruct (_ !! _). Qed.

Lemma print_choice_returns mode count show_metadata i choice text :
  content mode choice = inr text →
  returns (print_choice (content mode) count show_metadata i choice).
Proof.
  intros Htext. pose proof (content_dict _ _ _ Htext) as Hdict.
  destruct choice as [| | | | | |d]; try done.
  unfold print_choice. rewrite Htext. simpl lift. rewrite ret_bind.
  apply returns_bind.
  { apply returns_when. intros _.
    repeat (apply returns_bind; [apply returns_print|intros _ _]). apply returns_print. }
  intros _ _. apply returns_bind; [apply returns_print|]. intros _ _.
  apply returns_when. intros _.
  apply returns_bind; [apply returns_print|]. intros _ _.
  simpl lift. rewrite ret_bind.
  apply returns_bind; [apply returns_print|]. intros _ _.
  rewrite ret_bind. unfold getitem.
  destruct (d !! "logprobs") as [logprobs|].
  - rewrite bool_decide_true by done. simpl lift. rewrite !ret_bind.
    apply returns_when. intros _. apply returns_print.
  - rewrite bool_decide_false by by intros [? ?]. rewrite ret_bind. by exists ().
Qed.

Lemma print_choices_returns mode response show_metadata :
  choices_ok mode response = true →
  returns (print_choices (content mode) response show_metadata).
Proof.
  unfold choices_ok, print_choices.
  destruct (response !! "choices") as [[| | | | |choices|]|]; try done;
    [|intros _; apply returns_print].
  intros Hok. simpl lift. rewrite ret_bind.
  destruct (0 <? _); [|apply returns_print].
  rewrite ret_bind. apply returns_for_each, Forall_forall.
  intros [i choice] (j & c & [= -> ->] & Hchoice)%elem_of_lookup_imap. simpl.
  rewrite forallb_forall in Hok. specialize (Hok c).
  destruct (content mode c) as [|text] eqn:Hcontent.
  - rewrite <- list_elem_of_In in Hok. by apply list_elem_of_lookup_2, Hok in Hchoice.
  - by eapply print_choice_returns.
Qed.

Lemma print_response_ok response mode elapsed_time show_metadata :
  choices_ok mode response = true →
  (show_metadata = true → usage_ok response = true) →
  result (print_response response mode elapsed_time show_metadata) = Ret ().
Proof.
  intros Hchoices Husage.
  assert (returns (print_response response mode elapsed_time show_metadata)) as [[] ?];
    [|done].
  unfold print_response. apply returns_bind.
  - by destruct mode; apply (print_choices_returns _ _ _ Hchoices).
  - intros _ _. apply returns_when. intros Hshow.
    by apply print_metadata_returns, Husage.
Qed.

(** X8. [print_response] does not raise on a response whose choices
    all have the shape of the mode and whose [usage], when metadata is
    shown, is missing or an object with a numeric [completion_tokens];
    and it only prints. *)
Theorem print_response_returns (response : gmap string value) (mode : Mode)
    (elapsed_time : float) (show_metadata : bool) :
  choices_ok mode response = true →
  (show_metadata = true → usage_ok response = true) →
  result (print_response response mode elapsed_time show_metadata) = Ret ()
  ∧ only_prints (trace (print_response response mode elapsed_time show_metadata)).
Proof.
  intros Hchoices Husage. split; [|apply only_prints_print_response].
  by apply print_response_ok.
Qed.

Lemma print_response_returns_witness :
  result (print_response two_choices Completion 0.5 true) = Ret ().
Proof.
  apply (print_response_returns two_choices Completion 0.5 true).
  - reflexivity.
  - intros _. reflexivity.
Defined.

(** ** What the renderer prints *)

Lemma print_choice_plain mode count i choice text :
  content mode choice = inr text →
  print_choice (content mode) count false i choice
  = ((if 1 <? count then banner i else []) ++ [Print [Str text]], Ret ()).
Proof.
  intros Htext. unfold print_choice. rewrite Htext. by destruct (1 <? count).
Qed.

Lemma for_each_plain mode count choices texts (j : nat) :
  Forall2 (λ choice text, content mode choice = inr text) choices texts →
  for_each (imap (λ i choice, (j + i, choice)%nat) choices)
    (λ ic, print_choice (content mode) count false ic.1 ic.2)
  = (mjoin (imap (λ i text,
                    (if 1 <? count then banner (j + i) else []) ++ [Print [Str text]])
              texts),
     Ret ()).
Proof.
  intros Htexts. revert j.
  induction Htexts as [|choice text choices texts Htext _ IH]; intros j; [done|].
  rewrite !imap_cons. cbn [for_each fst snd].
  rewrite (print_choice_plain _ _ _ _ _ Htext), (bind_Ret (_, _) _ ()) by done.
  rewrite (imap_ext _ (λ i choice, (S j + i, choice)%nat))
    by (intros; simpl; f_equal; lia).
  rewrite IH. cbn [trace result fst snd mjoin list_join].
  do 3 f_equal. apply imap_ext. intros i t _. simpl. by rewrite Nat.add_succ_r.
Qed.

(** X9. Without metadata, [print_response] prints the text of each
    choice in order, and nothing else when there is one choice; when
    there are several, each text comes after a three-line banner that
    numbers it from 1. *)
Theorem print_response_plain (response : gmap string value) (mode : Mode)
    (elapsed_time : float) (choices texts : list value) :
  response !! "choices" = Some (VList choices) →
  choices ≠ [] →
  Forall2 (λ choice text, content mode choice = inr text) choices texts →
  print_response response mode elapsed_time false = (plain texts, Ret ()).
Proof.
  intros Hchoices Hne Htexts.
  assert (print_choices (content mode) response false = (plain texts, Ret ())) as Hplain.
  { unfold print_choices. rewrite Hchoices. simpl lift. rewrite ret_bind.
    destruct choices as [|choice choices]; [done|].
    replace (0 <? Z.of_nat (length (choice :: choices))) with true
      by (symmetry; apply Z.ltb_lt; simpl; lia).
    rewrite ret_bind, (for_each_plain mode _ _ texts 0 Htexts).
    by rewrite (Forall2_length _ _ _ Htexts). }
  unfold print_response.
  destruct mode;
    [change (content Completion) with completion_content in Hplain
    |change (content Chat) with chat_content in Hplain];
    rewrite Hplain; by rewrite (bind_Ret (_, _) _ ()), app_nil_r.
Qed.

Lemma print_response_plain_witness :
  trace (print_response two_choices Completion 0.5 false)
  = banner 0 ++ [Print [Str (VStr " Paris")]]
    ++ banner 1 ++ [Print [Str (VStr " Lyon")]]
  ∧ trace (print_response paris Completion 0.5 false) = [Print [Str (VStr " Paris")]].
Proof.
  split.
  - by rewrite (print_response_plain two_choices Completion 0.5
                  [VDict (list_to_map [("text", VStr " Paris");
                                        ("finish_reason", VStr "stop")]);
                   VDict (list_to_map [("text", VStr " Lyon");
                                        ("finish_reason", VStr "length")])]
                  [VStr " Paris"; VStr " Lyon"] eq_refl)
      by (done || by repeat constructor).
  - by rewrite (print_response_plain paris Completion 0.5
                  [VDict (list_to_map [("text", VStr " Paris");
                                        ("finish_reason", VStr "stop")])]
                  [VStr " Paris"] eq_refl)
      by (done || by repeat constructor).
Defined.

(** X10. A first choice that lacks the key of the mode makes
    [print_response] raise [KeyError] before anything is printed:
    ["text"] in completion mode, ["message"] in chat mode. *)
Theorem print_response_key_error (response : gmap string value) (mode : Mode)
    (elapsed_time : float) (show_metadata : bool) (choice : gmap string value)
    (choices : list value) :
  response !! "choices" = Some (VList (VDict choice :: choices)) →
  choice !! (match mode with Completion => "text" | Chat => "message" end) = None →
  print_response response mode elapsed_time show_metadata
  = ([], Raised (KeyError (VStr (match mode with
                                 | Completion => "text"
                                 | Chat => "message"
                                 end)))).
Proof.
  intros Hchoices Hkey. unfold print_response.
  destruct mode; unfold print_choices; rewrite Hchoices; simpl lift;
    rewrite ret_bind;
    (replace (0 <? Z.of_nat (length (VDict choice :: choices))) with true
       by (symmetry; apply Z.ltb_lt; simpl; lia));
    rewrite ret_bind, imap_cons; cbn [for_each fst snd];
    unfold print_choice, chat_content, completion_content, getitem;
    by rewrite Hkey.
Qed.

Lemma print_response_key_error_witness :
  result (print_response chat_body Completion 0.5 false)
  = Raised (KeyError (VStr "text")).
Proof.
  by rewrite (print_response_key_error chat_body Completion 0.5 false
                (list_to_map [
                   ("message", VDict (list_to_map [
                      ("role", VStr "assistant"); ("content", VStr "2+2 is 4.")]));
                   ("finish_reason", VStr "stop")]) [] eq_refl eq_refl).
Defined.

(** ** The metadata block *)

(** X11. On a response whose [usage] is missing or an object whose
    [completion_tokens] is missing or a number, [print_metadata] prints
    the latency, then the throughput line exactly when the count
    (0 when missing) and the elapsed time are both greater than 0,
    with the count divided by the seconds, then, if there is a
    [usage], its three counts, with [N/A] for a count that is missing. *)
Theorem print_metadata_lines (response : gmap string value) (elapsed_time : float) :
  numeric_usage response = true →
  (response !! "usage" = None →
   print_metadata response elapsed_time = (metrics_header elapsed_time, Ret ()))
  ∧ (∀ usage, response !! "usage" = Some (VDict usage) →
     ∃ speed,
       print_metadata response elapsed_time
       = (metrics_header elapsed_time ++ speed ++ usage_lines usage, Ret ())
       ∧ match default (VInt 0) (usage !! "completion_tokens") with
         | VInt z =>
             speed = if (0 <? elapsed_time)%float && (0 <? z)
                     then [Print [Text "  Tokens per second: ";
                                  Fixed 2 (SF2Prim (binary_normalize prec emax z 0 false)
                                           / elapsed_time)%float]]
                     else []
         | VFloat f =>
             speed = if (0 <? elapsed_time)%float && (0 <? f)%float
                     then [Print [Text "  Tokens per second: ";
                                  Fixed 2 (f / elapsed_time)%float]]
                     else []
         | VBool b =>
             speed = if (0 <? elapsed_time)%float && b
                     then [Print [Text "  Tokens per second: ";
                                  Fixed 2 (1 / elapsed_time)%float]]
                     else []
         | _ => False
         end).
Proof.
  intros Hok. unfold numeric_usage in Hok. unfold print_metadata, with_usage. split.
  { by intros ->. }
  intros usage Husage. rewrite Husage in *.
  assert (float_takes (default (VInt 0) (usage !! "completion_tokens")) = true)
    as Htokens by by destruct (usage !! "completion_tokens").
  exists (speed_lines (default (VInt 0) (usage !! "completion_tokens")) elapsed_time).
  split.
  - assert ((completion_tokens ← lift (get (VDict usage) "completion_tokens" (VInt 0));
             positive ← lift (gt_zero completion_tokens);
             when (positive && (0 <? elapsed_time)%float)
               (tokens_per_sec ← lift (truediv completion_tokens elapsed_time);
                print [Text "  Tokens per second: "; Fixed 2 tokens_per_sec]))
            = (speed_lines (default (VInt 0) (usage !! "completion_tokens"))
                 elapsed_time, Ret ())) as ->; [|done].
    simpl lift. rewrite ret_bind, (gt_zero_number _ Htokens). simpl lift.
    rewrite ret_bind. unfold speed_lines.
    rewrite throughput_positive, (andb_comm (0 <? elapsed_time)%float).
    destruct (is_positive (default (VInt 0) (usage !! "completion_tokens"))
              && (0 <? elapsed_time)%float) eqn:Hspeed; [|done].
    apply andb_prop in Hspeed as [Hpositive Ht].
    by destruct (truediv_number _ _ Htokens Hpositive Ht) as (x & -> & ->).
  - unfold speed_lines. rewrite throughput_positive.
    destruct (default (VInt 0) (usage !! "completion_tokens")) as [| |z| | | |];
      try done; simpl.
    + by destruct (0 <? elapsed_time)%float, b.
    + by destruct (0 <? elapsed_time)%float, (0 <? z).
    + by destruct (0 <? elapsed_time)%float, (0 <? f)%float.
Qed.

Lemma print_metadata_lines_witness :
  trace (print_metadata paris 0.5)
  = metrics_header 0.5
    ++ [Print [Text "  Tokens per second: "; Fixed 2 6]]
    ++ [Print [Text (newline +:+ str_mul "─" 60)];
        Print [Text "Usage Statistics:"];
        Print [Text "  Prompt tokens: "; Str (VInt 5)];
        Print [Text "  Completion tokens: "; Str (VInt 3)];
        Print [Text "  Total tokens: "; Str (VInt 8)]]
  ∧ trace (print_metadata zero_choices 0.5)
    = metrics_header 0.5
      ++ [Print [Text (newline +:+ str_mul "─" 60)];
          Print [Text "Usage Statistics:"];
          Print [Text "  Prompt tokens: "; Str (VInt 5)];
          Print [Text "  Completion tokens: "; Str (VInt 0)];
          Print [Text "  Total tokens: "; Str (VInt 5)]].
Proof.
  split.
  - destruct (print_metadata_lines paris 0.5 eq_refl) as [_ Hlines].
    destruct (Hlines _ eq_refl) as (speed & -> & Hspeed).
    vm_compute in Hspeed. by subst speed.
  - destruct (print_metadata_lines zero_choices 0.5 eq_refl) as [_ Hlines].
    destruct (Hlines _ eq_refl) as (speed & -> & Hspeed).
    vm_compute in Hspeed. by subst speed.
Defined.

(** X12. A [usage] that is there but is not an object (a [null], say)
    is not handled. With metadata shown, [print_response] raises
    [AttributeError] once the choices and the latency are printed; with
    [--json], the timing object raises it whenever some time has
    elapsed, and is built without looking at [usage] when none has. *)
Theorem usage_not_object_raises (round : float → Z → float)
    (response : gmap string value) (mode : Mode) (elapsed_time : float) (usage : value) :
  response !! "usage" = Some usage →
  is_dict usage = false →
  (returns (print_choices (content mode) response true) →
   result (print_response response mode elapsed_time true) = Raised AttributeError)
  ∧ ((0 <? elapsed_time)%float = true →
     response_with_timing round response elapsed_time = ([], Raised AttributeError))
  ∧ ((0 <? elapsed_time)%float = false →
     returns (response_with_timing round response elapsed_time)).
Proof.
  intros Husage Hdict. split_and!.
  - intros [[] Hchoices]. unfold print_response.
    assert (result (print_metadata response elapsed_time) = Raised AttributeError)
      as Hmeta.
    { unfold print_metadata, with_usage. rewrite Husage.
      do 3 rewrite (bind_Ret (print _) _ ()) by done. by destruct usage. }
    destruct mode;
      [change (content Completion) with completion_content in Hchoices
      |change (content Chat) with chat_content in Hchoices];
      rewrite (bind_Ret _ _ () Hchoices); simpl when; cbn [result snd]; exact Hmeta.
  - intros Ht. unfold response_with_timing, tokens_per_second.
    rewrite Ht, Husage. by destruct usage.
  - intros Ht. unfold response_with_timing, tokens_per_second. rewrite Ht.
    rewrite ret_bind. by eexists.
Qed.

Lemma usage_not_object_raises_witness :
  result (print_response null_usage Completion 0.5 true) = Raised AttributeError
  ∧ response_with_timing round_stub null_usage 0.5 = ([], Raised AttributeError).
Proof.
  destruct (usage_not_object_raises round_stub null_usage Completion 0.5 VNone)
    as (Hprint & Hjson & _); [reflexivity..|].
  split; [apply Hprint|by apply Hjson].
  apply (print_choices_returns Completion null_usage true). reflexivity.
Defined.

(** ** The timing object *)

(** X13. The dict that [--json] prints is the response with one key
    set: every other key keeps its value, and a [_timing] the server
    sent is replaced. Building it prints nothing. *)
Theorem response_with_timing_keeps (round : float → Z → float)
    (response with_timing : gmap string value) (elapsed_time : float) :
  result (response_with_timing round response elapsed_time) = Ret with_timing →
  trace (response_with_timing round response elapsed_time) = []
  ∧ (∀ key, key ≠ "_timing" → with_timing !! key = response !! key)
  ∧ ∃ tokens_per_second,
      with_timing !! "_timing"
      = Some (VDict (list_to_map [
          ("request_latency_seconds", VFloat (round elapsed_time 3));
          ("tokens_per_second", tokens_per_second)])).
Proof.
  unfold response_with_timing.
  destruct (tokens_per_second round response elapsed_time) as [tr [v|e|c]] eqn:Htps;
    [|done..].
  assert (tr = []) as ->.
  { revert Htps. unfold tokens_per_second.
    destruct (0 <? elapsed_time)%float; [|by intros [= <- _]].
    destruct (get _ _ _) as [|tokens]; [done|]. simpl lift. rewrite ret_bind.
    destruct (gt_zero tokens) as [|[]]; [done| |by intros [= <- _]].
    simpl lift. rewrite !ret_bind.
    destruct (truediv tokens elapsed_time); [done|]. by intros [= <- _]. }
  rewrite (bind_Ret (_, _) _ v) by done. cbn [trace result fst snd app].
  intros [= <-]. split_and!; [done| |].
  - intros key Hkey. by rewrite lookup_insert_ne.
  - exists v. by rewrite lookup_insert_eq.
Qed.

Lemma response_with_timing_keeps_witness :
  ∃ with_timing,
    result (response_with_timing round_stub paris 0.5) = Ret with_timing
    ∧ with_timing !! "usage" = Some (usage 5 3 8).
Proof.
  eexists. split; [reflexivity|].
  by rewrite (proj1 (proj2 (response_with_timing_keeps round_stub paris _ 0.5 eq_refl))).
Defined.

(** ** The prompt tool from end to end *)

Lemma display_configuration_returns args : returns (display_configuration args).
Proof.
  unfold display_configuration.
  repeat (apply returns_bind;
          [first [apply returns_print | apply returns_when; intros _; apply returns_print]
          |intros ? _]).
  apply returns_print.
Qed.

(** Past the validation, [main] prints, makes its request and, if the
    request returns, displays the response. *)
Lemma main_split round args net :
  has_required_argument args = true →
  ∃ intro, only_prints intro
    ∧ main round args net
      = match result (request_of args net) with
        | Ret (response, elapsed_time) =>
            (intro ++ trace (request_of args net)
             ++ trace (display_response round args response elapsed_time),
             result (display_response round args response elapsed_time))
        | Raised e => (intro ++ trace (request_of args net), Raised e)
        | Exited c => (intro ++ trace (request_of args net), Exited c)
        end.
Proof.
  intros Hreq. rewrite main_validated by done.
  pose proof (display_configuration_returns args) as [[] Hconf].
  pose proof (only_prints_display_configuration args) as Hconf_prints.
  set (warn := when (Args.stream args) _).
  set (conf := when (negb (Args.json args)) _).
  assert (result warn = Ret ()) as Hwarn by (subst warn; by destruct (Args.stream args)).
  assert (only_prints (trace warn)) as Hwarn_prints
    by (subst warn; apply only_prints_when, only_prints_print).
  assert (result conf = Ret ()) as Hconf'
    by (subst conf; by destruct (Args.json args)).
  assert (only_prints (trace conf)) as Hconf_prints'
    by (subst conf; by apply only_prints_when).
  assert (∃ intro, only_prints intro
            ∧ make_request args false net
              = (intro ++ trace (request_of args net), result (request_of args net)))
    as (intro & Hintro & ->).
  { unfold make_request, request_of. destruct (Args.mode args).
    - set (p := when _ _). exists (trace p). split.
      + subst p. apply only_prints_when. only_prints.
      + rewrite (bind_Ret p _ ()); [done|].
        subst p. by destruct (Args.json args).
    - set (p := when _ _). exists (trace p). split.
      + subst p. apply only_prints_when. only_prints.
      + rewrite (bind_Ret p _ ()); [done|].
        subst p. by destruct (Args.json args), (truthy_str (Args.system args)). }
  exists (trace warn ++ trace conf ++ intro). split.
  { unfold only_prints in *. by rewrite !Forall_app. }
  rewrite (bind_Ret warn _ () Hwarn), (bind_Ret conf _ () Hconf').
  cbn [trace result fst snd].
  destruct (result (request_of args net)) as [[response t]|e|c] eqn:Hres.
  - rewrite (bind_Ret (_, _) _ (response, t)) by done.
    cbn [trace result fst snd]. by rewrite <- !app_assoc.
  - rewrite (bind_Raised (_, _) _ e) by done.
    cbn [trace result fst snd]. by rewrite <- !app_assoc.
  - rewrite (bind_Exited (_, _) _ c) by done.
    cbn [trace result fst snd]. by rewrite <- !app_assoc.
Qed.

Lemma request_of_failed args net msg :
  (∀ url payload, http_post net url payload = Failed msg) →
  request_of args net
  = ([Post (endpoint args) (payload args) 60;
      Print [Text "❌ Error: "; Exn (RequestException msg)]], Exited 1).
Proof.
  intros Hpost. unfold request_of, endpoint, payload.
  destruct (Args.mode args);
    unfold prompt_completion, prompt_chat, requests_post, try_except;
    by rewrite Hpost.
Qed.

Lemma request_of_answered args net response elapsed_time :
  (∀ url payload, http_post net url payload = Body (Some response)) →
  (∀ url payload, elapsed net url payload = elapsed_time) →
  request_of args net
  = ([Post (endpoint args) (payload args) 60], Ret (response, elapsed_time)).
Proof.
  intros Hpost Helapsed. unfold request_of, endpoint, payload.
  destruct (Args.mode args);
    unfold prompt_completion, prompt_chat, requests_post, try_except;
    by rewrite Hpost, Helapsed.
Qed.

(** X14. When the request fails, [main] prints the error after what it
    had printed before the request and exits with status 1: the
    response is not rendered, and with [--json] no JSON is printed. *)
Theorem main_request_failed (round : float → Z → float) (args : Args.t)
    (net : network) (msg : string) :
  has_required_argument args = true →
  (∀ url payload, http_post net url payload = Failed msg) →
  exit_code (main round args net) = 1
  ∧ ∃ intro, only_prints intro
      ∧ trace (main round args net)
        = intro ++ [Post (endpoint args) (payload args) 60;
                    Print [Text "❌ Error: "; Exn (RequestException msg)]].
Proof.
  intros Hreq Hpost. destruct (main_split round args net Hreq) as (intro & Hintro & ->).
  rewrite (request_of_failed args net msg Hpost). split; [done|by exists intro].
Qed.

Lemma main_request_failed_witness :
  exit_code (main round_stub
               (command_line Completion (Some "The capital of France is") None None None
                  false false false) offline) = 1.
Proof.
  apply (main_request_failed round_stub
           (command_line Completion (Some "The capital of France is") None None None
              false false false) offline "Connection refused"); [reflexivity|].
  intros; reflexivity.
Defined.

(** X15. When the server answers with a well-formed response, [main]
    ends with exit status 0 in both output modes: with [--json] for a
    [usage] as the API has it, otherwise for choices of the shape of
    the mode (and such a [usage] when metadata is shown). *)
Theorem main_succeeds (round : float → Z → float) (args : Args.t) (net : network)
    (response : gmap string value) (elapsed_time : float) :
  has_required_argument args = true →
  (∀ url payload, http_post net url payload = Body (Some response)) →
  (∀ url payload, elapsed net url payload = elapsed_time) →
  (if Args.json args
   then (0 <? elapsed_time)%float = true → usage_ok response = true
   else choices_ok (Args.mode args) response = true
        ∧ (Args.show_metadata args = true → usage_ok response = true)) →
  exit_code (main round args net) = 0.
Proof.
  intros Hreq Hpost Helapsed Hresponse.
  destruct (main_split round args net Hreq) as (intro & _ & ->).
  rewrite (request_of_answered args net response elapsed_time Hpost Helapsed).
  unfold exit_code. cbn [result snd]. unfold display_response.
  destruct (Args.json args).
  - destruct (tokens_per_second_spec round response elapsed_time Hresponse)
      as (v & Htps & _).
    unfold response_with_timing. by rewrite Htps.
  - destruct Hresponse as [Hchoices Husage].
    rewrite (bind_Ret _ _ ()); [done|]. by apply print_response_ok.
Qed.

Lemma main_succeeds_witness :
  exit_code (main round_stub
               (command_line Completion (Some "The capital of France is") None None None
                  false true false) (mock two_choices 0.5)) = 0.
Proof.
  apply (main_succeeds round_stub
           (command_line Completion (Some "The capital of France is") None None None
              false true false) (mock two_choices 0.5) two_choices 0.5);
    [reflexivity|intros; reflexivity|intros; reflexivity|].
  split; [reflexivity|intros _; reflexivity].
Defined.

(** X16. With [--json], a successful run prints the JSON and nothing
    around it (no banner, no prompt echo), except that [--stream] puts
    its warning on the same stdout before the JSON. *)
Theorem json_stdout (round : float → Z → float) (args : Args.t) (net : network)
    (response : gmap string value) (elapsed_time : float) :
  Args.json args = true →
  has_required_argument args = true →
  (∀ url payload, http_post net url payload = Body (Some response)) →
  (∀ url payload, elapsed net url payload = elapsed_time) →
  ((0 <? elapsed_time)%float = true → usage_ok response = true) →
  ∃ with_timing,
    result (response_with_timing round response elapsed_time) = Ret with_timing
    ∧ printed (trace (main round args net))
      = (if Args.stream args
         then [[Text "⚠️  Warning: Streaming is not implemented in this script"]]
         else [])
        ++ [[JsonDumps (VDict with_timing)]].
Proof.
  intros Hjson Hreq Hpost Helapsed Husage.
  destruct (tokens_per_second_spec round response elapsed_time Husage)
    as (v & Htps & _).
  destruct (make_request_json args net response elapsed_time Hjson Hpost Helapsed)
    as (url & payload & Hrequest).
  eexists. split.
  { unfold response_with_timing. by rewrite Htps. }
  rewrite main_validated, Hjson, Hrequest by done. simpl negb.
  rewrite when_false_bind, (bind_Ret (_, _) _ (response, elapsed_time)) by done.
  unfold display_response, response_with_timing. rewrite Hjson, Htps.
  by destruct (Args.stream args).
Qed.

Lemma json_stdout_witness :
  ∃ with_timing,
    printed (trace (main round_stub
                      (command_line Completion (Some "The capital of France is") None
                         None None true false true)
                      (mock paris 0.5)))
    = [[Text "⚠️  Warning: Streaming is not implemented in this script"];
       [JsonDumps (VDict with_timing)]].
Proof.
  destruct (json_stdout round_stub
    (command_line Completion (Some "The capital of France is") None None None
       true false true)
    (mock paris 0.5) paris 0.5) as (with_timing & _ & Hprinted);
    [reflexivity|reflexivity|intros; reflexivity|intros; reflexivity|
     intros; reflexivity|].
  exists with_timing. exact Hprinted.
Defined.

(** X17. In chat mode [main] drops the options that belong to
    completion mode without a word: whatever [--prompt], [--echo],
    [--min-tokens], [--use-beam-search] and [--length-penalty] are,
    the payload it posts has none of their keys. *)
Theorem chat_mode_drops_completion_options (round : float → Z → float)
    (args : Args.t) (net : network) (payload : gmap string value) :
  Args.mode args = Chat →
  payload ∈ posts (trace (main round args net)) →
  payload !! "prompt" = None ∧ payload !! "echo" = None
  ∧ payload !! "min_tokens" = None ∧ payload !! "use_beam_search" = None
  ∧ payload !! "length_penalty" = None.
Proof.
  intros Hmode ->%main_posts. rewrite Hmode. split_and!; by payload_lookup.
Qed.

Lemma chat_mode_drops_completion_options_witness :
  Forall (λ payload : gmap string value,
            payload !! "echo" = None ∧ payload !! "min_tokens" = None)
    (posts (trace (main round_stub chat_with_completion_options (mock chat_body 0.5)))).
Proof.
  apply Forall_forall. intros payload Hposted.
  destruct (chat_mode_drops_completion_options round_stub chat_with_completion_options
              (mock chat_body 0.5) payload eq_refl Hposted) as (_ & Hecho & Hmin & _).
  by split.
Defined.

(** ** The probes of the harness *)

#[local] Arguments try_except : simpl never.

(** Closes a probe once its body is evaluated. *)
Ltac probe_done := solve [unfold try_except; split_and!; reflexivity].

(** Evaluates a probe as far as the equations at hand allow. *)
Ltac probe_eval :=
  repeat (progress (cbn;
                    repeat match goal with
                           | H : _ !! _ = _ |- _ => rewrite H
                           | H : Z.ltb _ _ = _ |- _ => rewrite H
                           end)).

Lemma test_health_run net base_url :
  result (TestLlmApi.test_health net base_url)
  = Ret (match http_get net (base_url +:+ "/health") with
         | Body _ => true
         | Failed _ => false
         end)
  ∧ calls (trace (TestLlmApi.test_health net base_url)) = [(base_url +:+ "/health", 5)].
Proof.
  unfold TestLlmApi.test_health, requests_get.
  destruct (http_get net _); probe_done.
Qed.

Lemma test_list_models_run net base_url :
  result (TestLlmApi.test_list_models net base_url)
  = Ret (answers lists_a_model (http_get net (base_url +:+ "/v1/models")))
  ∧ calls (trace (TestLlmApi.test_list_models net base_url))
    = [(base_url +:+ "/v1/models", 5)].
Proof.
  unfold TestLlmApi.test_list_models, requests_get, answers, lists_a_model, first_of,
    TestLlmApi.non_empty.
  destruct (http_get net _) as [msg|[body|]]; [probe_done| |probe_done].
  destruct (body !! "data") as [[| | | |s|[|[| | | | | |model] items]|d]|] eqn:Hdata;
    probe_eval; try probe_done.
  - destruct (0 <? str_len s) eqn:Hlen; probe_eval; [|probe_done].
    destruct (code_points "" s); probe_done.
  - destruct (model !! "id") eqn:Hid; probe_eval; probe_done.
  - destruct (0 <? Z.of_nat (size d)) eqn:Hlen; probe_eval; probe_done.
Qed.

Lemma test_text_completion_run net base_url model_name :
  ∃ payload,
    result (TestLlmApi.test_text_completion net base_url model_name)
    = Ret (answers has_text (http_post net (base_url +:+ "/v1/completions") payload))
    ∧ trace (TestLlmApi.test_text_completion net base_url model_name) !! 0%nat
      = Some (Post (base_url +:+ "/v1/completions") payload 30)
    ∧ payload !! "model" = Some (VStr model_name)
    ∧ calls (trace (TestLlmApi.test_text_completion net base_url model_name))
      = [(base_url +:+ "/v1/completions", 30)].
Proof.
  exists (list_to_map [
            ("model", VStr model_name);
            ("prompt", VStr "The capital of France is");
            ("max_tokens", VInt 10);
            ("temperature", VFloat 0.1)]).
  unfold TestLlmApi.test_text_completion, requests_post, answers, has_text,
    first_of, TestLlmApi.non_empty. cbv zeta.
  destruct (http_post net _ _) as [msg|[body|]]; [probe_done| |probe_done].
  destruct (body !! "choices") as [[| | | |s|[|[| | | | | |choice] items]|d]|] eqn:Hdata;
    probe_eval; try probe_done.
  - destruct (0 <? str_len s) eqn:Hlen; probe_eval; [|probe_done].
    destruct (code_points "" s); probe_done.
  - destruct (choice !! "text") eqn:Hid; probe_eval; probe_done.
  - destruct (0 <? Z.of_nat (size d)) eqn:Hlen; probe_eval; probe_done.
Qed.

Lemma test_chat_completion_run net base_url model_name :
  ∃ payload,
    result (TestLlmApi.test_chat_completion net base_url model_name)
    = Ret (answers has_chat_content
             (http_post net (base_url +:+ "/v1/chat/completions") payload))
    ∧ trace (TestLlmApi.test_chat_completion net base_url model_name) !! 0%nat
      = Some (Post (base_url +:+ "/v1/chat/completions") payload 30)
    ∧ payload !! "model" = Some (VStr model_name)
    ∧ calls (trace (TestLlmApi.test_chat_completion net base_url model_name))
      = [(base_url +:+ "/v1/chat/completions", 30)].
Proof.
  exists (list_to_map [
            ("model", VStr model_name);
            ("messages", VList [VDict (list_to_map [
               ("role", VStr "user");
               ("content", VStr "What is 2+2? Answer in one short sentence.")])]);
            ("max_tokens", VInt 50);
            ("temperature", VFloat 0.7)]).
  unfold TestLlmApi.test_chat_completion, requests_post, answers,
    has_chat_content, first_of, TestLlmApi.non_empty. cbv zeta.
  destruct (http_post net _ _) as [msg|[body|]]; [probe_done| |probe_done].
  destruct (body !! "choices") as [[| | | |s|[|[| | | | | |choice] items]|d]|] eqn:Hdata;
    probe_eval; try probe_done.
  - destruct (0 <? str_len s) eqn:Hlen; probe_eval; [|probe_done].
    destruct (code_points "" s); probe_done.
  - destruct (choice !! "message") as [[| | | | | |message]|] eqn:Hmessage; probe_eval;
      try probe_done.
    destruct (message !! "content") eqn:Hid; probe_eval; probe_done.
  - destruct (0 <? Z.of_nat (size d)) eqn:Hlen; probe_eval; probe_done.
Qed.

(** X18. [test_health] never raises: it passes exactly when the GET of
    [/health] succeeds, whatever the body is, JSON or not. *)
Theorem test_health_verdict (net : network) (base_url : string) :
  returns (TestLlmApi.test_health net base_url)
  ∧ (result (TestLlmApi.test_health net base_url) = Ret true
     ↔ ∃ body, http_get net (base_url +:+ "/health") = Body body).
Proof.
  destruct (test_health_run net base_url) as [Hresult _]. rewrite Hresult.
  split; [by eexists|].
  destruct (http_get net _) as [msg|body]; split; try done.
  - by intros [? ?].
  - by eexists.
Qed.

(** X19. [test_list_models] never raises, whatever the server sends: it
    passes exactly when the GET of [/v1/models] succeeds with a JSON
    body whose [data] is a list that starts with an object that has an
    [id]; an empty list, a [data] of another type and a first entry
    without [id] all count as a failed probe. *)
Theorem test_list_models_verdict (net : network) (base_url : string) :
  returns (TestLlmApi.test_list_models net base_url)
  ∧ (result (TestLlmApi.test_list_models net base_url) = Ret true
     ↔ ∃ body model models id,
         http_get net (base_url +:+ "/v1/models") = Body (Some body)
         ∧ body !! "data" = Some (VList (VDict model :: models))
         ∧ model !! "id" = Some id).
Proof.
  destruct (test_list_models_run net base_url) as [Hresult _]. rewrite Hresult.
  split; [by eexists|]. unfold answers, lists_a_model, first_of. split.
  - intros [= Htrue]. destruct (http_get net _) as [|[body|]]; try done.
    destruct (body !! "data") as [[| | | | |[|[| | | | | |model] models]|]|] eqn:Hdata;
      try done.
    apply bool_decide_eq_true in Htrue as [id Hid]. by exists body, model, models, id.
  - intros (body & model & models & id & -> & -> & Hid).
    by rewrite bool_decide_true.
Qed.

(** X20. [test_chat_completion] posts its fixed question for the model
    it is given, and never raises: it passes exactly when the POST
    succeeds with a JSON body whose [choices] is a list that starts
    with an object whose [message] is an object that has a [content]. *)
Theorem test_chat_completion_verdict (net : network) (base_url model_name : string) :
  ∃ payload,
    trace (TestLlmApi.test_chat_completion net base_url model_name) !! 0%nat
    = Some (Post (base_url +:+ "/v1/chat/completions") payload 30)
    ∧ payload !! "model" = Some (VStr model_name)
    ∧ returns (TestLlmApi.test_chat_completion net base_url model_name)
    ∧ (result (TestLlmApi.test_chat_completion net base_url model_name) = Ret true
       ↔ ∃ body choice choices message content,
           http_post net (base_url +:+ "/v1/chat/completions") payload
           = Body (Some body)
           ∧ body !! "choices" = Some (VList (VDict choice :: choices))
           ∧ choice !! "message" = Some (VDict message)
           ∧ message !! "content" = Some content).
Proof.
  destruct (test_chat_completion_run net base_url model_name)
    as (payload & Hresult & Hfirst & Hmodel & _).
  exists payload. rewrite Hresult. split_and!; [done|done|by eexists|].
  unfold answers, has_chat_content, first_of. split.
  - intros [= Htrue]. destruct (http_post net _ _) as [|[body|]]; try done.
    destruct (body !! "choices") as [[| | | | |[|[| | | | | |choice] choices]|]|]
      eqn:Hchoices; try done.
    destruct (choice !! "message") as [[| | | | | |message]|] eqn:Hmessage; try done.
    apply bool_decide_eq_true in Htrue as [content Hcontent].
    by exists body, choice, choices, message, content.
  - intros (body & choice & choices & message & content & -> & -> & -> & Hcontent).
    by rewrite bool_decide_true.
Qed.

(** X21. [test_text_completion] posts its fixed prompt for the model it
    is given, and never raises: it passes exactly when the POST
    succeeds with a JSON body whose [choices] is a list that starts
    with an object that has a [text]. *)
Theorem test_text_completion_verdict (net : network) (base_url model_name : string) :
  ∃ payload,
    trace (TestLlmApi.test_text_completion net base_url model_name) !! 0%nat
    = Some (Post (base_url +:+ "/v1/completions") payload 30)
    ∧ payload !! "model" = Some (VStr model_name)
    ∧ returns (TestLlmApi.test_text_completion net base_url model_name)
    ∧ (result (TestLlmApi.test_text_completion net base_url model_name) = Ret true
       ↔ ∃ body choice choices text,
           http_post net (base_url +:+ "/v1/completions") payload = Body (Some body)
           ∧ body !! "choices" = Some (VList (VDict choice :: choices))
           ∧ choice !! "text" = Some text).
Proof.
  destruct (test_text_completion_run net base_url model_name)
    as (payload & Hresult & Hfirst & Hmodel & _).
  exists payload. rewrite Hresult. split_and!; [done|done|by eexists|].
  unfold answers, has_text, first_of. split.
  - intros [= Htrue]. destruct (http_post net _ _) as [|[body|]]; try done.
    destruct (body !! "choices") as [[| | | | |[|[| | | | | |choice] choices]|]|]
      eqn:Hchoices; try done.
    apply bool_decide_eq_true in Htrue as [text Htext].
    by exists body, choice, choices, text.
  - intros (body & choice & choices & text & -> & -> & Htext).
    by rewrite bool_decide_true.
Qed.

(** ** The harness from end to end *)



(** X23. The exit status of the harness is 0 when every probe that ran
    passed and 1 otherwise, for every server: never another status,
    never an uncaught exception. *)
Theorem harness_exit_code (args : TestLlmApi.Args) (net : network) :
  ∃ health models chat text,
    (TestLlmApi.skip_health args = false →
     result (TestLlmApi.test_health net (TestLlmApi.url args)) = Ret health)
    ∧ result (TestLlmApi.test_list_models net (TestLlmApi.url args)) = Ret models
    ∧ result (TestLlmApi.test_chat_completion net (TestLlmApi.url args)
                (TestLlmApi.model args)) = Ret chat
    ∧ result (TestLlmApi.test_text_completion net (TestLlmApi.url args)
                (TestLlmApi.model args)) = Ret text
    ∧ exit_code (TestLlmApi.main args net)
      = if (TestLlmApi.skip_health args || health) && models && chat && text
        then 0 else 1.
Proof.
  destruct (test_health_run net (TestLlmApi.url args)) as [Hhealth _].
  destruct (test_list_models_run net (TestLlmApi.url args)) as [Hmodels _].
  destruct (test_chat_completion_run net (TestLlmApi.url args) (TestLlmApi.model args))
    as (x & Hchat & _).
  destruct (test_text_completion_run net (TestLlmApi.url args) (TestLlmApi.model args))
    as (x0 & Htext & _).
  do 4 eexists. split_and!; [by intros _|done..|].
  destruct (test_main_summary args net _ _ _ _ (λ _, Hhealth) Hmodels Hchat Htext)
    as [before ->].
  change (exit_code (?tr, result ?p)) with (exit_code p).
  rewrite summary_exit_code.
  generalize (answers lists_a_model
                (http_get net (TestLlmApi.url args +:+ "/v1/models"))).
  generalize (answers has_chat_content
                (http_post net (TestLlmApi.url args +:+ "/v1/chat/completions") x)).
  generalize (answers has_text
                (http_post net (TestLlmApi.url args +:+ "/v1/completions") x0)).
  intros text chat models.
  by destruct (TestLlmApi.skip_health args), (http_get net _), models, chat, text.
Qed.
